(** * Firebase function utilities: loggers and error-tracking wrappers

    A shallow embedding of the three packages of the repository:

    - the structured logger adapter, [packages/pino-logger/src/logger.ts]
      (module [PinoLogger]);
    - the leveled logger facade of [@valian/function-logger], the file
      [logger.ts] that declares [getMinLevel] (module [FunctionLogger]);
    - the error-tracking layer of [@valian/node-sentry]: [init-sentry.ts],
      which declares [processErrorWithSentryCaptureContext] and
      [initSentry], and [packages/sentry/src/sentry-wrapper.ts]
      (module [Sentry]);

    together with the part of ECMAScript they rest on (module [JS]) and a
    monad for their effects (module [Eff]).  The properties follow the
    definitions, one module of properties for each part. *)

From Stdlib Require Import QArith Lqa.
From stdpp Require Import gmap strings list fin_maps pretty.

#[local] Set Warnings "-register-all,-clear-no-such-hyp".
#[local] Open Scope string_scope.

(* ===================================================================== *)
(** * ECMAScript values, numbers and completions *)
(* ===================================================================== *)

Module JS.

(** A JavaScript number is an IEEE double: not-a-number, the two
    infinities, or a finite value.  Every finite double is a rational and
    [<] on doubles is [<] on those rationals, so finite numbers are
    carried as [Q]; the two zeros are not told apart (no comparison
    does). *)
Inductive number : Type :=
| NaN
| NegInfinity
| PosInfinity
| Finite (q : Q).

Arguments Finite q%_Q.

(** [x < y] (Number::lessThan, with the undefined outcome of a
    comparison against NaN read as false, as [if] does). *)
Definition number_lt (x y : number) : bool :=
  match x, y with
  | NaN, _ | _, NaN => false
  | _, NegInfinity => false
  | NegInfinity, _ => true
  | PosInfinity, _ => false
  | Finite _, PosInfinity => true
  | Finite p, Finite q => negb (Qle_bool q p)
  end.

(** [x <= y]: not NaN on either side and not [y < x]. *)
Definition number_le (x y : number) : bool :=
  match x, y with
  | NaN, _ | _, NaN => false
  | _, _ => negb (number_lt y x)
  end.

(** The values [JSON.parse] can produce, and [undefined] (what reading a
    missing property gives).  Objects are finite maps from property names
    to values. *)
Inductive JSValue : Type :=
| JUndefined
| JNull
| JBoolean (b : bool)
| JNumber (n : number)
| JString (s : string)
| JArray (elems : list JSValue)
| JObject (props : gmap string JSValue).

(** The two errors the language itself raises in the code below. *)
Inductive JSError : Type := SyntaxError | TypeError.

(** The outcome of evaluating an expression: a value, or an exception. *)
Inductive Completion (X A : Type) : Type :=
| Normal (a : A)
| Throw (x : X).

Arguments Normal {X A} a.
Arguments Throw {X A} x.

#[global] Instance Completion_ret {X} : MRet (Completion X) :=
  fun _ a => Normal a.

#[global] Instance Completion_bind {X} : MBind (Completion X) :=
  fun _ _ k c =>
    match c with
    | Normal a => k a
    | Throw x => Throw x
    end.

(** [v ?? d]. *)
Definition nullish_or (v d : JSValue) : JSValue :=
  match v with
  | JUndefined | JNull => d
  | _ => v
  end.

(** The own enumerable properties of [ToObject(v)]: the properties of an
    object, the indexed elements of an array, the indexed characters of a
    string, none for a number or a boolean.  [null] and [undefined] have
    no object: destructuring them throws. *)
Definition own_properties (v : JSValue)
  : Completion JSError (gmap string JSValue) :=
  match v with
  | JUndefined | JNull => Throw TypeError
  | JBoolean _ | JNumber _ => Normal ∅
  | JString s =>
      Normal (list_to_map
                (imap (fun i c => (pretty i, JString (String c EmptyString)))
                      (String.list_ascii_of_string s)))
  | JArray elems => Normal (list_to_map (imap (fun i e => (pretty i, e)) elems))
  | JObject props => Normal props
  end.

(** [o.k] on the properties of a parsed value: the property, or
    [undefined]. *)
Definition get (props : gmap string JSValue) (k : string) : JSValue :=
  default JUndefined (props !! k).

(** [{ ...base, ...ext }]: the properties of [ext] are written after those
    of [base] and replace them. *)
Definition spread {V} (base ext : gmap string V) : gmap string V :=
  ext ∪ base.

(** The builtins of the runtime the packages call.  They are not code of
    the repository and are taken as given:
    - [JSON_parse s] is [JSON.parse(s)], which throws a [SyntaxError] on
      text that is not JSON;
    - [StringToNumber s] is the number a string converts to;
    - [ObjectToNumber v] is [ToNumber] on an array or object (through
      [ToPrimitive], which can throw a [TypeError]);
    - [JSON_stringify v indent] is [JSON.stringify(v, null, indent)],
      a string or [undefined]. *)
Class Runtime : Type := {
  JSON_parse : string -> Completion JSError JSValue;
  StringToNumber : string -> number;
  ObjectToNumber : JSValue -> Completion JSError number;
  JSON_stringify : JSValue -> nat -> JSValue;
}.

Section Coercions.
Context `{Runtime}.

(** ToNumber (ECMA-262 7.1.4). *)
Definition ToNumber (v : JSValue) : Completion JSError number :=
  match v with
  | JUndefined => Normal NaN
  | JNull => Normal (Finite 0)
  | JBoolean b => Normal (if b then Finite 1 else Finite 0)
  | JNumber n => Normal n
  | JString s => Normal (StringToNumber s)
  | JArray _ | JObject _ => ObjectToNumber v
  end.

(** [v < n] for a number literal [n]: the left operand is converted to a
    number and the numbers are compared. *)
Definition lessThan (v : JSValue) (n : number) : Completion JSError bool :=
  x ← ToNumber v; mret (number_lt x n).

End Coercions.

End JS.

(* ===================================================================== *)
(** * Effects: calls to the outside world, ambient state, exceptions *)
(* ===================================================================== *)

(** A computation runs from a state [S], leaves the calls it made to
    external services (of type [E], oldest first) and ends normally or by
    throwing a value of type [X].  An [async] function whose awaits are in
    sequence is such a computation: its promise resolves with the normal
    value or rejects with the thrown one. *)
Module Eff.
Import JS.

Record Result (S E X A : Type) : Type := mkResult {
  trace : list E;
  final : S;
  outcome : Completion X A;
}.

Arguments mkResult {S E X A} trace final outcome.
Arguments trace {S E X A} r.
Arguments final {S E X A} r.
Arguments outcome {S E X A} r.

Definition M (S E X A : Type) : Type := S -> Result S E X A.

#[global] Instance M_ret {S E X} : MRet (M S E X) :=
  fun _ a s => mkResult [] s (Normal a).

#[global] Instance M_bind {S E X} : MBind (M S E X) :=
  fun _ _ k m s =>
    let r := m s in
    match outcome r with
    | Normal a =>
        let r' := k a (final r) in
        mkResult (trace r ++ trace r') (final r') (outcome r')
    | Throw x => mkResult (trace r) (final r) (Throw x)
    end.

Section Operations.
Context {S E X : Type}.

(** An expression without effects. *)
Definition lift {A} (c : Completion X A) : M S E X A :=
  fun s => mkResult [] s c.

(** A call to an external service that returns nothing of interest. *)
Definition call (e : E) : M S E X () :=
  fun s => mkResult [e] s (Normal ()).

(** A write to the ambient state. *)
Definition modify (f : S -> S) : M S E X () :=
  fun s => mkResult [] (f s) (Normal ()).

(** [try { body } catch (x) { handler x }]. *)
Definition try_catch {A} (body : M S E X A) (handler : X -> M S E X A)
  : M S E X A :=
  fun s =>
    let r := body s in
    match outcome r with
    | Normal _ => r
    | Throw x =>
        let r' := handler x (final r) in
        mkResult (trace r ++ trace r') (final r') (outcome r')
    end.

(** [try { return body } finally { cleanup }]: the cleanup always runs;
    the body's outcome stands unless the cleanup itself throws. *)
Definition try_finally {A} (body : M S E X A) (cleanup : M S E X ())
  : M S E X A :=
  fun s =>
    let r := body s in
    let r' := cleanup (final r) in
    mkResult (trace r ++ trace r') (final r')
      match outcome r' with
      | Normal _ => outcome r
      | Throw x => Throw x
      end.

End Operations.

End Eff.

(* ===================================================================== *)
(** * [process.env] *)
(* ===================================================================== *)

(** The environment of the process: a variable is unset, or a string. *)
Abbreviation ProcessEnv := (gmap string string).

(* ===================================================================== *)
(** * packages/pino-logger/src/logger.ts *)
(* ===================================================================== *)

Module PinoLogger.
Import JS Eff.

Definition isLocalEnvironment (env : ProcessEnv) : bool :=
  bool_decide (env !! "FUNCTIONS_EMULATOR" = Some "true")
  || bool_decide (env !! "NODE_ENV" = Some "test")
  || bool_decide (env !! "NODE_ENV" = Some "development").

Inductive LogSeverity : Type :=
| DEBUG | INFO | NOTICE | WARNING | ERROR | CRITICAL | ALERT | EMERGENCY.

(** The string a severity is (the type is a union of string literals). *)
Definition LogSeverity_string (s : LogSeverity) : string :=
  match s with
  | DEBUG => "DEBUG" | INFO => "INFO" | NOTICE => "NOTICE"
  | WARNING => "WARNING" | ERROR => "ERROR" | CRITICAL => "CRITICAL"
  | ALERT => "ALERT" | EMERGENCY => "EMERGENCY"
  end.

(** The tiers in increasing order, as Cloud Logging numbers them. *)
Definition LogSeverity_tier (s : LogSeverity) : nat :=
  match s with
  | DEBUG => 100 | INFO => 200 | NOTICE => 300 | WARNING => 400
  | ERROR => 500 | CRITICAL => 600 | ALERT => 700 | EMERGENCY => 800
  end.

(** The severity the four comparisons of [pinoLevelToSeverity] choose when
    the level is a number. *)
Definition severity_of_number (x : number) : LogSeverity :=
  if number_lt x (Finite 30) then DEBUG
  else if number_lt x (Finite 40) then INFO
  else if number_lt x (Finite 50) then WARNING
  else if number_lt x (Finite 60) then ERROR
  else CRITICAL.

(** A record handed to the native logger: an object with a [severity], a
    [message] and any further fields. *)
Abbreviation LogEntry := (gmap string JSValue).

Section Destination.
Context `{Runtime}.

Definition pinoLevelToSeverity (level : JSValue)
  : Completion JSError LogSeverity :=
  lt30 ← lessThan level (Finite 30);
  if lt30 : bool then mret DEBUG else
  lt40 ← lessThan level (Finite 40);
  if lt40 : bool then mret INFO else
  lt50 ← lessThan level (Finite 50);
  if lt50 : bool then mret WARNING else
  lt60 ← lessThan level (Finite 60);
  if lt60 : bool then mret ERROR else
  mret CRITICAL.

(** [firebaseLogger.write(entry)]: the native logger of the hosting runtime
    takes the record.  Its contract is [(entry: LogEntry) => void]; it is
    taken to return normally. *)
Definition firebaseLogger_write (entry : LogEntry) : M () LogEntry JSError () :=
  call entry.

(** [const { level, time, pid, hostname, msg, ...rest } = log]: the two
    bindings that are used, and the remaining properties. *)
Definition destructure (log : JSValue)
  : Completion JSError (JSValue * JSValue * gmap string JSValue) :=
  props ← own_properties log;
  mret (get props "level", get props "msg",
        delete "msg" (delete "hostname" (delete "pid"
          (delete "time" (delete "level" props))))).

(** [firebaseDestination.write(logLine)]. *)
Definition write (logLine : string) : M () LogEntry JSError () :=
  try_catch
    (log ← lift (JSON_parse logLine);
     '(level, msg, rest) ← lift (destructure log);
     severity ← lift (pinoLevelToSeverity level);
     firebaseLogger_write
       (spread {[ "severity" := JString (LogSeverity_string severity);
                  "message" := nullish_or msg (JString "") ]}
               rest))
    (fun _ =>
       firebaseLogger_write
         {[ "severity" := JString "ERROR"; "message" := JString logLine ]}).

End Destination.

(** The two backends [createLogger] chooses between: pino with the
    [pino-pretty] transport, or pino writing to [firebaseDestination]. *)
Inductive Backend : Type := PinoPretty | FirebaseDestination.

(** The call [createLogger] makes to [pino]: the [level] option as it is
    handed over, and the backend.  What pino (not among the sources) makes
    of the option, which it normalises and refuses when it names no level
    it knows, is not part of the record. *)
Record PinoInstance : Type := {
  pino_level : string;
  pino_backend : Backend;
}.

(** [createLogger(level = process.env.LOG_LEVEL ?? 'debug')]; [None] is
    a call without the argument. *)
Definition createLogger (env : ProcessEnv) (level : option string)
  : PinoInstance :=
  {| pino_level := default (default "debug" (env !! "LOG_LEVEL")) level;
     pino_backend :=
       if isLocalEnvironment env then PinoPretty else FirebaseDestination |}.

End PinoLogger.

(* ===================================================================== *)
(** * packages/logger/src/logger.ts *)
(* ===================================================================== *)

Module FunctionLogger.

Definition getMinLevel (env : ProcessEnv) : nat :=
  let logLevel := default "debug" (env !! "LOG_LEVEL") in
  if String.eqb logLevel "debug" then 2
  else if String.eqb logLevel "info" then 3
  else if String.eqb logLevel "warn" then 4
  else if String.eqb logLevel "error" then 5
  else 0.

(** What the module exports as [logger]: a tslog logger with a minimum
    level (its other settings are templates and colours), or the native
    logger of the hosting runtime. *)
Inductive LoggerImpl : Type :=
| TSLogger (minLevel : nat)
| firebaseLogger.

Definition logger (env : ProcessEnv) : LoggerImpl :=
  if bool_decide (env !! "FUNCTIONS_EMULATOR" = Some "true")
     || bool_decide (env !! "NODE_ENV" = Some "test")
     || bool_decide (env !! "NODE_ENV" = Some "development")
  then TSLogger (getMinLevel env)
  else firebaseLogger.

(** The four leveled methods of the facade, with the level ids tslog
    gives them (0 silly, 1 trace, 2 debug, 3 info, 4 warn, 5 error,
    6 fatal). *)
Inductive Level : Type := debug | info | warn | error.

Definition logLevelId (l : Level) : nat :=
  match l with
  | debug => 2
  | info => 3
  | warn => 4
  | error => 5
  end.

(** The value of [LOG_LEVEL] that names a level. *)
Definition Level_name (l : Level) : string :=
  match l with
  | debug => "debug"
  | info => "info"
  | warn => "warn"
  | error => "error"
  end.

(** Whether a message logged at level [l] is written.  tslog drops a
    message whose level id is below [minLevel]; the native logger is
    handed every message. *)
Definition emitted (impl : LoggerImpl) (l : Level) : bool :=
  match impl with
  | TSLogger minLevel => (minLevel <=? logLevelId l)%nat
  | firebaseLogger => true
  end.

End FunctionLogger.

(* ===================================================================== *)
(** * packages/sentry/src *)
(* ===================================================================== *)

Module Sentry.
Import JS Eff.

(** ** Events, capture contexts and thrown values *)

(** The part of an outgoing report the code reads and writes: the
    extra-data, tag and context-block mappings (an absent mapping is the
    empty one), the fingerprint, and the [handled] flag of the exception
    mechanism. *)
Record Event : Type := {
  event_extra : gmap string JSValue;
  event_tags : gmap string string;
  event_contexts : gmap string JSValue;
  event_fingerprint : option (list string);
  event_handled : option bool;
}.

(** The capture context an error carries: each field may be absent. *)
Record ErrorCaptureContext : Type := {
  extra : option (gmap string JSValue);
  tags : option (gmap string string);
  contexts : option (gmap string JSValue);
  fingerprint : option (list string);
}.

(** A thrown value (of type [unknown]): a value that is no error, an
    ordinary [Error], or an [ErrorWithSentryCaptureContext].  An error
    has a [cause] or none; a chain of causes is finite. *)
Inductive Exception : Type :=
| NotAnError (v : JSValue)
| PlainError (message : string) (cause : option Exception)
| ErrorWithSentryCaptureContext
    (message : string) (captureContext : ErrorCaptureContext)
    (cause : option Exception).

(** ToBoolean: what [if (exception.cause)] tests. *)
Definition ToBoolean (v : JSValue) : bool :=
  match v with
  | JUndefined | JNull => false
  | JBoolean b => b
  | JNumber NaN => false
  | JNumber (Finite q) => negb (Qeq_bool q 0)
  | JNumber _ => true
  | JString s => negb (String.eqb s "")
  | JArray _ | JObject _ => true
  end.

Definition truthy (e : Exception) : bool :=
  match e with
  | NotAnError v => ToBoolean v
  | PlainError _ _ | ErrorWithSentryCaptureContext _ _ _ => true
  end.

(** Modelled from the spec: the method [beforeSend] of
    [ErrorWithSentryCaptureContext] (error-with-sentry-capture-context.ts
    is not among the sources).  Section 4.4, step 2: the extra-data of the
    capture context is merged into the extra-data of the event, tags the
    same way, context blocks by key (shallow), and a fingerprint, if
    present, replaces the one of the event; section 9: a key written again
    is overwritten (last write wins). *)
Definition beforeSend (ctx : ErrorCaptureContext) (event : Event) : Event :=
  {| event_extra := from_option (spread (event_extra event)) (event_extra event) (extra ctx);
     event_tags := from_option (spread (event_tags event)) (event_tags event) (tags ctx);
     event_contexts :=
       from_option (spread (event_contexts event)) (event_contexts event) (contexts ctx);
     event_fingerprint :=
       match fingerprint ctx with
       | Some f => Some f
       | None => event_fingerprint event
       end;
     event_handled := event_handled event |}.

(** ** init-sentry.ts *)

Fixpoint processErrorWithSentryCaptureContext
  (event : Event) (exception : Exception) : Event :=
  match exception with
  | ErrorWithSentryCaptureContext _ captureContext cause =>
      let event := beforeSend captureContext event in
      match cause with
      | Some c =>
          if truthy c then processErrorWithSentryCaptureContext event c
          else event
      | None => event
      end
  | NotAnError _ | PlainError _ _ => event
  end.

(** The [beforeSend] hook [initSentry] installs:
    [(event, hint) => { process(event, hint.originalException); return event }]. *)
Definition initSentry_beforeSend (event : Event) (originalException : Exception)
  : Event :=
  processErrorWithSentryCaptureContext event originalException.

(** The capture contexts the walk applies, outermost first: those of the
    context-carrying errors met from the exception down its causes, up to
    the first cause that is absent, falsy, or not context-carrying. *)
Fixpoint layers (exception : Exception) : list ErrorCaptureContext :=
  match exception with
  | ErrorWithSentryCaptureContext _ captureContext cause =>
      captureContext ::
      match cause with
      | Some c => if truthy c then layers c else []
      | None => []
      end
  | NotAnError _ | PlainError _ _ => []
  end.

(** The walk as the source runs it, on the one event it is handed: the
    function returns nothing, and each call of the method [beforeSend]
    writes to the event in place.  The calls are recorded, oldest first,
    each with the capture context of the error it is made on. *)
Definition beforeSend_call (captureContext : ErrorCaptureContext)
  : M Event ErrorCaptureContext Exception () :=
  call captureContext;; modify (beforeSend captureContext).

Fixpoint processErrorWithSentryCaptureContext_in_place (exception : Exception)
  : M Event ErrorCaptureContext Exception () :=
  match exception with
  | ErrorWithSentryCaptureContext _ captureContext cause =>
      beforeSend_call captureContext;;
      match cause with
      | Some c =>
          if truthy c then processErrorWithSentryCaptureContext_in_place c
          else mret ()
      | None => mret ()
      end
  | NotAnError _ | PlainError _ _ => mret ()
  end.

(** The tags and the extra-data of a capture context, none if absent. *)
Definition tags_of (ctx : ErrorCaptureContext) : gmap string string :=
  default ∅ (tags ctx).

Definition extra_of (ctx : ErrorCaptureContext) : gmap string JSValue :=
  default ∅ (extra ctx).

(** The chain every link of which is a context-carrying error: the top
    error, with its message and capture context, and its causes in turn,
    ending with the root. *)
Fixpoint error_chain
  (top : string * ErrorCaptureContext)
  (causes : list (string * ErrorCaptureContext)) : Exception :=
  match causes with
  | [] => ErrorWithSentryCaptureContext (fst top) (snd top) None
  | cause :: causes =>
      ErrorWithSentryCaptureContext (fst top) (snd top)
        (Some (error_chain cause causes))
  end.

(** A cause chain given link by link: each link is a context-carrying
    error or an ordinary [Error]. *)
Inductive Link : Type :=
| Carrying (message : string) (captureContext : ErrorCaptureContext)
| Ordinary (message : string).

(** The error [top] whose causes are [causes], in turn. *)
Fixpoint chain_of (top : Link) (causes : list Link) : Exception :=
  let cause :=
    match causes with
    | [] => None
    | c :: causes => Some (chain_of c causes)
    end in
  match top with
  | Carrying message captureContext =>
      ErrorWithSentryCaptureContext message captureContext cause
  | Ordinary message => PlainError message cause
  end.

(** The capture contexts of the links before the first ordinary one. *)
Fixpoint carried_prefix (links : list Link) : list ErrorCaptureContext :=
  match links with
  | Carrying _ captureContext :: links => captureContext :: carried_prefix links
  | _ => []
  end.

(** ** sentry-wrapper.ts *)

(** A scope: tags, context blocks, the user, and the event processors
    added to it (oldest first). *)
Record Scope : Type := {
  scope_tags : gmap string string;
  scope_contexts : gmap string JSValue;
  scope_user : option JSValue;
  scope_eventProcessors : list (Event -> Event);
}.

Definition setTag (key value : string) (scope : Scope) : Scope :=
  {| scope_tags := <[key := value]> (scope_tags scope);
     scope_contexts := scope_contexts scope;
     scope_user := scope_user scope;
     scope_eventProcessors := scope_eventProcessors scope |}.

Definition setContext (key : string) (context : JSValue) (scope : Scope) : Scope :=
  {| scope_tags := scope_tags scope;
     scope_contexts := <[key := context]> (scope_contexts scope);
     scope_user := scope_user scope;
     scope_eventProcessors := scope_eventProcessors scope |}.

Definition setUser (user : JSValue) (scope : Scope) : Scope :=
  {| scope_tags := scope_tags scope;
     scope_contexts := scope_contexts scope;
     scope_user := Some user;
     scope_eventProcessors := scope_eventProcessors scope |}.

Definition addEventProcessor (callback : Event -> Event) (scope : Scope) : Scope :=
  {| scope_tags := scope_tags scope;
     scope_contexts := scope_contexts scope;
     scope_user := scope_user scope;
     scope_eventProcessors := scope_eventProcessors scope ++ [callback] |}.

(** [addExceptionMechanism(event, { handled })] of the SDK on the event of
    a reported exception, which is what [captureException] builds and what
    [Event] stands for: the mechanism of the reported exception takes the
    flag.  (An event that carries no exception is left as it is by the
    SDK; [Event] has no such value.) *)
Definition addExceptionMechanism (handled : bool) (event : Event) : Event :=
  {| event_extra := event_extra event;
     event_tags := event_tags event;
     event_contexts := event_contexts event;
     event_fingerprint := event_fingerprint event;
     event_handled := Some handled |}.

Definition markEventUnhandled (scope : Scope) : Scope :=
  addEventProcessor (fun event => addExceptionMechanism false event) scope.

Record StartSpanOptions : Type := {
  span_name : string;
  span_op : string;
}.

(** The calls a wrapper makes to the SDK and to the logger facade.
    [X] is the type of thrown values. *)
Inductive Call (X : Type) : Type :=
| StartSpan (context : StartSpanOptions)
| WithScope
| LoggerError (message : string) (error : X)
| CaptureException (error : X) (captureContext : Scope -> Scope)
| Flush (timeout : nat).

Arguments StartSpan {X} context.
Arguments WithScope {X}.
Arguments LoggerError {X} message error.
Arguments CaptureException {X} error captureContext.
Arguments Flush {X} timeout.

(** The payloads of the triggers, as far as the wrappers read them:
    string fields as strings, open-ended data as values. *)
Record SentryWrapperParams : Type := {
  name : string;
}.

Record EventContext : Type := {
  eventId : string;
  eventType : string;
  resource : JSValue;
  timestamp : string;
  params : JSValue;
}.

Record DocumentReference : Type := {
  ref_id : string;
  ref_path : string;
}.

(** A snapshot: its reference and what [data()] returns. *)
Record DocumentSnapshot : Type := {
  ref : DocumentReference;
  data : JSValue;
}.

Record Change : Type := {
  before : DocumentSnapshot;
  after : DocumentSnapshot;
}.

(** A [FirestoreEvent]: the fields of a [CloudEvent] (the subject may be
    absent), the document path and the event data. *)
Record FirestoreEvent : Type := {
  event_id : string;
  event_type : string;
  event_source : string;
  event_subject : option string;
  event_time : string;
  event_document : string;
  event_data : JSValue;
}.

(** A string that may be [undefined]. *)
Definition optional_string (s : option string) : JSValue :=
  from_option JString JUndefined s.

Definition is_capture {X} (c : Call X) : bool :=
  match c with
  | CaptureException _ _ => true
  | _ => false
  end.

Definition is_flush {X} (c : Call X) : bool :=
  match c with
  | Flush _ => true
  | _ => false
  end.

Definition is_logger_error {X} (c : Call X) : bool :=
  match c with
  | LoggerError _ _ => true
  | _ => false
  end.

(** [scope.setContext(key, context)] for a context that may be [null]:
    the SDK removes the block then. *)
Definition setContext_nullable (key : string) (context : JSValue) (scope : Scope)
  : Scope :=
  match context with
  | JNull =>
      {| scope_tags := scope_tags scope;
         scope_contexts := delete key (scope_contexts scope);
         scope_user := scope_user scope;
         scope_eventProcessors := scope_eventProcessors scope |}
  | _ => setContext key context scope
  end.

(** A Pub/Sub message of the legacy generation: [message.json] is a
    getter that parses the data and throws when they are not JSON. *)
Record Message (X : Type) : Type := {
  json : Completion X JSValue;
}.

Arguments json {X} m.

Record UserRecord : Type := {
  uid : string;
}.

(** A task request: [retryCount] is a number. *)
Record Request : Type := {
  request_id : string;
  queueName : string;
  retryCount : number;
  request_data : JSValue;
}.

Section Wrappers.
Context {X : Type} `{Runtime} (env : ProcessEnv).

(** An asynchronous piece of work: it runs in the current scope, may call
    the SDK, and resolves with an [R] or rejects with an [X]. *)
Abbreviation Async R := (M Scope (Call X) X R).

(** [startSpan(context, callback)]: the span is opened and the callback
    runs in it; its outcome is the outcome of the call. *)
Definition startSpan {R} (context : StartSpanOptions) (callback : Async R)
  : Async R :=
  call (StartSpan context);; callback.

(** [withScope(callback)]: the callback runs in a fork of the current
    scope, which is current again afterwards. *)
Definition withScope {R} (callback : Async R) : Async R :=
  fun current =>
    let r := (call WithScope;; callback) current in
    mkResult (trace r) current (outcome r).

Definition captureException (error : X) (captureContext : Scope -> Scope)
  : Async () :=
  call (CaptureException error captureContext).

Definition flush (timeout : nat) : Async () :=
  call (Flush timeout).

(** [logger.error(message, error)] of the logger facade. *)
Definition logger_error (message : string) (error : X) : Async () :=
  call (LoggerError message error).

Definition throw {R} (error : X) : Async R :=
  lift (Throw error).

Definition sentryCaptureUnhandledExceptionWrapper {R}
  (work : Async R) (captureContext : option (Scope -> Scope)) : Async R :=
  try_catch work
    (fun error =>
       (if bool_decide (env !! "NODE_ENV" ≠ Some "production")
        then logger_error "Unhandled exception" error
        else mret ());;
       captureException error
         (fun scope =>
            let scope := markEventUnhandled scope in
            match captureContext with
            | Some f => f scope
            | None => scope
            end);;
       throw error).

Definition sentryConfigurationWrapper {R}
  (context : StartSpanOptions) (configure : Async ()) (work : Async R)
  : Async R :=
  try_finally
    (startSpan context (withScope (configure;; work)))
    (flush 5000).

Definition sentryInvocationV1Wrapper {R}
  (options : SentryWrapperParams) (context : EventContext)
  (configure : Async ()) (work : Async R) : Async R :=
  sentryConfigurationWrapper
    {| span_name := name options; span_op := eventType context |}
    (configure;;
     modify (setTag "function.version" "v1");;
     modify (setTag "function.name" (name options));;
     modify (setContext "Firebase Context"
               (JObject {[ "eventId" := JString (eventId context);
                           "eventType" := JString (eventType context);
                           "resource" := resource context;
                           "timestamp" := JString (timestamp context) ]})))
    (sentryCaptureUnhandledExceptionWrapper work None).

Definition sentryOnWriteV1Wrapper {R}
  (options : SentryWrapperParams)
  (handler : Change -> EventContext -> Async R)
  (change : Change) (context : EventContext) : Async R :=
  sentryInvocationV1Wrapper options context
    (modify (setContext "Firestore Document"
               (JObject {[ "param" := params context;
                           "id" := JString (ref_id (ref (before change)));
                           "path" := JString (ref_path (ref (before change)));
                           "before" := JSON_stringify (data (before change)) 2;
                           "after" := JSON_stringify (data (after change)) 2 ]})))
    (handler change context).

Definition sentryInvocationV2Wrapper {R}
  (options : SentryWrapperParams) (event : FirestoreEvent)
  (configure : Async ()) (work : Async R) : Async R :=
  sentryConfigurationWrapper
    {| span_name := name options; span_op := event_type event |}
    (configure;;
     modify (setTag "function.version" "v2");;
     modify (setTag "function.name" (name options));;
     modify (setContext "Firebase Context"
               (JObject {[ "eventId" := JString (event_id event);
                           "eventType" := JString (event_type event);
                           "source" := JString (event_source event);
                           "subject" := optional_string (event_subject event);
                           "timestamp" := JString (event_time event) ]})))
    (sentryCaptureUnhandledExceptionWrapper work None).

Definition sentryWrapOnDocumentChange {R}
  (options : SentryWrapperParams) (handler : FirestoreEvent -> Async R)
  (event : FirestoreEvent) : Async R :=
  sentryInvocationV2Wrapper options event
    (modify (setContext "Firestore Document"
               (JObject {[ "document" := JString (event_document event);
                           "data" := event_data event ]})))
    (handler event).

Definition sentryOnPublishV1Wrapper {R}
  (options : SentryWrapperParams)
  (handler : Message X -> EventContext -> Async R)
  (message : Message X) (context : EventContext) : Async R :=
  sentryInvocationV1Wrapper options context
    (body ← lift (json message);
     modify (setContext_nullable "PubSub Message" body))
    (handler message context).

Definition sentryOnUserChangeV1Wrapper {R}
  (options : SentryWrapperParams)
  (handler : UserRecord -> EventContext -> Async R)
  (user : UserRecord) (context : EventContext) : Async R :=
  sentryInvocationV1Wrapper options context
    (modify (setUser (JObject {[ "id" := JString (uid user) ]})))
    (handler user context).

Definition sentryOnScheduleRunV1Wrapper {R}
  (options : SentryWrapperParams) (handler : EventContext -> Async R)
  (context : EventContext) : Async R :=
  sentryInvocationV1Wrapper options context (mret ()) (handler context).

(** The scheduled event is handed on as it is. *)
Definition sentryWrapOnSchedule
  (options : SentryWrapperParams) (handler : JSValue -> Async ())
  (event : JSValue) : Async () :=
  sentryConfigurationWrapper
    {| span_name := name options; span_op := "on-schedule" |}
    (modify (setContext "scheduledEvent" (JObject {[ "event" := event ]}));;
     modify (setTag "function.version" "v2");;
     modify (setTag "function.name" (name options)))
    (sentryCaptureUnhandledExceptionWrapper (handler event) None).

Definition sentryWrapOnTaskDispatched {R}
  (options : SentryWrapperParams) (handler : Request -> Async R)
  (request : Request) : Async R :=
  sentryConfigurationWrapper
    {| span_name := name options; span_op := "on-task-dispatched" |}
    (modify (setTag "function.version" "v2");;
     modify (setTag "function.name" (name options));;
     modify (setContext "Task Request"
               (JObject {[ "id" := JString (request_id request);
                           "queueName" := JString (queueName request);
                           "retryCount" := JNumber (retryCount request);
                           "data" := request_data request ]})))
    (sentryCaptureUnhandledExceptionWrapper (handler request) None).

End Wrappers.

End Sentry.

(* ===================================================================== *)
(** * Sample inputs *)
(* ===================================================================== *)

(** Concrete lines and a concrete runtime on which the models are run in
    the examples of the following sections. *)
Module Samples.
Import JS.

(** [s] between double quotes. *)
Definition quoted (s : string) : string :=
  String (Ascii.ascii_of_nat 34) (s ++ String (Ascii.ascii_of_nat 34) EmptyString).

(** The line [null]. *)
Definition line_null : string := "null".

(** The line that is an empty object. *)
Definition line_empty_object : string := "{}".

(** The line with the single field [level], which is [null]. *)
Definition line_level_null : string :=
  "{" ++ quoted "level" ++ ":null}".

(** The line with the single field [severity], the string INFO. *)
Definition line_severity_only : string :=
  "{" ++ quoted "severity" ++ ":" ++ quoted "INFO" ++ "}".

(** A line as pino writes it: level 30, a time, a pid, a hostname, a
    message and one bound field. *)
Definition line_info : string :=
  "{" ++ quoted "level" ++ ":30," ++ quoted "time" ++ ":1700000000000,"
      ++ quoted "pid" ++ ":7," ++ quoted "hostname" ++ ":" ++ quoted "fn" ++ ","
      ++ quoted "user" ++ ":" ++ quoted "ada" ++ ","
      ++ quoted "msg" ++ ":" ++ quoted "hello" ++ "}".

(** A line that is not JSON. *)
Definition line_garbage : string := "not json".

(** The values ECMAScript's [JSON.parse] gives for these lines. *)
Definition parsed_lines : list (string * JSValue) :=
  [ (line_null, JNull);
    (line_empty_object, JObject ∅);
    (line_level_null, JObject {[ "level" := JNull ]});
    (line_severity_only, JObject {[ "severity" := JString "INFO" ]});
    (line_info,
     JObject {[ "level" := JNumber (Finite 30);
                "time" := JNumber (Finite 1700000000000);
                "pid" := JNumber (Finite 7);
                "hostname" := JString "fn";
                "user" := JString "ada";
                "msg" := JString "hello" ]}) ].

Fixpoint assoc (table : list (string * JSValue)) (s : string) : option JSValue :=
  match table with
  | [] => None
  | (k, v) :: table => if String.eqb k s then Some v else assoc table s
  end.

(** A runtime that answers as ECMAScript does on the inputs the examples
    reach: [JSON.parse] on the lines above and on [line_garbage] (a
    [SyntaxError]).  No example reaches the conversion of a string or an
    object to a number, or [JSON.stringify]; there the record holds
    placeholders. *)
Definition runtime : Runtime := {|
  JSON_parse s := from_option Normal (Throw SyntaxError) (assoc parsed_lines s);
  StringToNumber _ := NaN;
  ObjectToNumber _ := Normal NaN;
  JSON_stringify _ _ := JUndefined;
|}.

(** The line [42], a JSON number. *)
Definition line_number : string := "42".

(** The sample pino line written later, by another process on another
    host. *)
Definition line_info_later : string :=
  "{" ++ quoted "level" ++ ":30," ++ quoted "time" ++ ":1700000000999,"
      ++ quoted "pid" ++ ":8," ++ quoted "hostname" ++ ":" ++ quoted "fn2" ++ ","
      ++ quoted "user" ++ ":" ++ quoted "ada" ++ ","
      ++ quoted "msg" ++ ":" ++ quoted "hello" ++ "}".

(** The sample runtime with these two lines added. *)
Definition runtime_more : Runtime := {|
  JSON_parse s :=
    from_option Normal (Throw SyntaxError)
      (assoc ((line_number, JNumber (Finite 42))
              :: (line_info_later,
                  JObject {[ "level" := JNumber (Finite 30);
                             "time" := JNumber (Finite 1700000000999);
                             "pid" := JNumber (Finite 8);
                             "hostname" := JString "fn2";
                             "user" := JString "ada";
                             "msg" := JString "hello" ]})
              :: parsed_lines) s);
  StringToNumber _ := NaN;
  ObjectToNumber _ := Normal NaN;
  JSON_stringify _ _ := JUndefined;
|}.

(** The chain of the test of [initSentry]: a top error caused by a middle
    error caused by a root error, each with a tag of its own and all three
    with the extra-data field [level]. *)
Definition rootCause : Sentry.Exception :=
  Sentry.ErrorWithSentryCaptureContext "Root cause"
    {| Sentry.extra := Some {[ "level" := JString "root" ]};
       Sentry.tags := Some {[ "root" := "true" ]};
       Sentry.contexts := None;
       Sentry.fingerprint := None |}
    None.

Definition middleCause : Sentry.Exception :=
  Sentry.ErrorWithSentryCaptureContext "Middle cause"
    {| Sentry.extra := Some {[ "level" := JString "middle" ]};
       Sentry.tags := Some {[ "middle" := "true" ]};
       Sentry.contexts := None;
       Sentry.fingerprint := None |}
    (Some rootCause).

Definition topError : Sentry.Exception :=
  Sentry.ErrorWithSentryCaptureContext "Top error"
    {| Sentry.extra := Some {[ "level" := JString "top" ]};
       Sentry.tags := Some {[ "top" := "true" ]};
       Sentry.contexts := None;
       Sentry.fingerprint := None |}
    (Some middleCause).

(** An event with nothing set yet. *)
Definition empty_event : Sentry.Event :=
  {| Sentry.event_extra := ∅;
     Sentry.event_tags := ∅;
     Sentry.event_contexts := ∅;
     Sentry.event_fingerprint := None;
     Sentry.event_handled := None |}.

(** A scope with nothing set yet. *)
Definition empty_scope : Sentry.Scope :=
  {| Sentry.scope_tags := ∅;
     Sentry.scope_contexts := ∅;
     Sentry.scope_user := None;
     Sentry.scope_eventProcessors := [] |}.

(** A document-change event of the current generation: the data holds
    the document before and after the change. *)
Definition document_written : Sentry.FirestoreEvent :=
  {| Sentry.event_id := "event-123";
     Sentry.event_type := "google.cloud.firestore.document.v1.written";
     Sentry.event_source := "projects/test/databases/(default)";
     Sentry.event_subject := Some "documents/collection/doc-123";
     Sentry.event_time := "2023-01-01T00:00:00.000Z";
     Sentry.event_document := "collection/doc-123";
     Sentry.event_data :=
       JObject {[ "before" := JObject {[ "field" := JString "before" ]};
                  "after" := JObject {[ "field" := JString "after" ]} ]} |}.

(** Payloads of the other triggers. *)
Definition wrapper_options : Sentry.SentryWrapperParams :=
  {| Sentry.name := "test-function" |}.

Definition event_context : Sentry.EventContext :=
  {| Sentry.eventId := "event-123";
     Sentry.eventType := "google.pubsub.topic.publish";
     Sentry.resource :=
       JObject {[ "service" := JString "pubsub";
                  "name" := JString "projects/test/topics/test-topic" ]};
     Sentry.timestamp := "2023-01-01T00:00:00.000Z";
     Sentry.params := JObject ∅ |}.

Definition user_record : Sentry.UserRecord :=
  {| Sentry.uid := "user-123" |}.

Definition task_request : Sentry.Request :=
  {| Sentry.request_id := "task-123";
     Sentry.queueName := "test-queue";
     Sentry.retryCount := Finite 0;
     Sentry.request_data := JObject {[ "foo" := JString "bar" ]} |}.

(** A message whose data are JSON, and one whose data are not. *)
Definition message_with_json : Sentry.Message Sentry.Exception :=
  {| Sentry.json := Normal (JObject {[ "data" := JString "test" ]}) |}.

Definition message_without_json : Sentry.Message Sentry.Exception :=
  {| Sentry.json :=
       Throw (Sentry.PlainError "Unable to parse Pub/Sub message data as JSON" None) |}.

(** A handler that resolves with the context block [Firestore Document]
    of the scope it runs in. *)
Definition read_document_context {X A} (_ : A)
  : Eff.M Sentry.Scope (Sentry.Call X) X (option JSValue) :=
  fun scope =>
    Eff.mkResult [] scope (Normal (Sentry.scope_contexts scope !! "Firestore Document")).

End Samples.

(* ===================================================================== *)
(** * Facts about object spread *)
(* ===================================================================== *)

Module JSFacts.
Import JS.

Lemma spread_lookup {V} (base ext : gmap string V) (k : string) :
  spread base ext !! k =
  match ext !! k with
  | Some v => Some v
  | None => base !! k
  end.
Proof.
  unfold spread. rewrite lookup_union.
  destruct (ext !! k), (base !! k); reflexivity.
Qed.

Lemma spread_dom {V} (base ext : gmap string V) :
  dom (spread base ext) = dom base ∪ dom ext.
Proof.
  unfold spread. rewrite dom_union_L. set_solver.
Qed.

End JSFacts.

(* ===================================================================== *)
(** * Properties of the structured logger adapter *)
(* ===================================================================== *)

Module PinoLoggerSpec.
Import JS Eff PinoLogger JSFacts.

Lemma number_lt_Finite (p q : Q) :
  number_lt (Finite p) (Finite q) = true <-> (p < q)%Q.
Proof.
  simpl. rewrite negb_true_iff, <- not_true_iff_false, Qle_bool_iff.
  split; [apply Qnot_le_lt | apply Qlt_not_le].
Qed.

Lemma number_lt_Finite_false (p q : Q) :
  number_lt (Finite p) (Finite q) = false <-> (q <= p)%Q.
Proof.
  simpl. rewrite negb_false_iff. apply Qle_bool_iff.
Qed.

Section Severity.
Context `{Runtime}.

Lemma pinoLevelToSeverity_number (x : number) :
  pinoLevelToSeverity (JNumber x) = Normal (severity_of_number x).
Proof.
  unfold pinoLevelToSeverity, severity_of_number, lessThan. cbn.
  repeat (destruct (number_lt x _); [reflexivity |]). reflexivity.
Qed.

(** The severity of any level is that of the number it converts to. *)
Lemma pinoLevelToSeverity_ToNumber (level : JSValue) :
  pinoLevelToSeverity level =
  n ← ToNumber level; mret (severity_of_number n).
Proof.
  unfold pinoLevelToSeverity, severity_of_number, lessThan.
  destruct (ToNumber level) as [n | x]; cbn; [| reflexivity].
  repeat (destruct (number_lt n _); [reflexivity |]). reflexivity.
Qed.

Lemma severity_of_number_monotonic (a b : number) :
  number_le a b = true ->
  LogSeverity_tier (severity_of_number a) <= LogSeverity_tier (severity_of_number b).
Proof.
  intros Hle. unfold severity_of_number.
  destruct a as [| | |p], b as [| | |q]; try discriminate Hle.
  - cbn. lia.
  - cbn. lia.
  - (* -Infinity and a finite number *)
    cbn [number_lt LogSeverity_tier].
    repeat (destruct (negb _); cbn [LogSeverity_tier]; try lia).
  - cbn. lia.
  - (* a finite number and +Infinity *)
    cbn [number_lt LogSeverity_tier].
    repeat (destruct (negb _); cbn [LogSeverity_tier]; try lia).
  - (* two finite numbers *)
    assert (Hpq : (p <= q)%Q).
    { cbn in Hle. rewrite negb_true_iff, negb_false_iff in Hle.
      now apply Qle_bool_iff. }
    destruct (number_lt (Finite q) (Finite 30)) eqn:Hq30;
    destruct (number_lt (Finite q) (Finite 40)) eqn:Hq40;
    destruct (number_lt (Finite q) (Finite 50)) eqn:Hq50;
    destruct (number_lt (Finite q) (Finite 60)) eqn:Hq60;
    destruct (number_lt (Finite p) (Finite 30)) eqn:Hp30;
    destruct (number_lt (Finite p) (Finite 40)) eqn:Hp40;
    destruct (number_lt (Finite p) (Finite 50)) eqn:Hp50;
    destruct (number_lt (Finite p) (Finite 60)) eqn:Hp60;
    cbn [LogSeverity_tier]; try lia; exfalso;
    repeat match goal with
      | Hlt : number_lt (Finite _) (Finite _) = true |- _ =>
          apply number_lt_Finite in Hlt
      | Hge : number_lt (Finite _) (Finite _) = false |- _ =>
          apply number_lt_Finite_false in Hge
      end; lra.
Qed.

(** C5.  The severity of a numeric level is given by the half-open ranges
    [0,30) DEBUG, [30,40) INFO, [40,50) WARNING, [50,60) ERROR and
    [60,infinity) CRITICAL; the mapping never throws on a number and is
    monotonic (for numbers [a <= b] the tier of [a] is at most the tier
    of [b]); at 29, 30, 39, 40, 49, 50, 59, 60 and 1000 it gives DEBUG,
    INFO, INFO, WARNING, WARNING, ERROR, ERROR, CRITICAL and CRITICAL. *)
Theorem pinoLevelToSeverity_ranges_monotonic :
  (forall q : Q, (0 <= q)%Q -> (q < 30)%Q ->
     pinoLevelToSeverity (JNumber (Finite q)) = Normal DEBUG) /\
  (forall q : Q, (30 <= q)%Q -> (q < 40)%Q ->
     pinoLevelToSeverity (JNumber (Finite q)) = Normal INFO) /\
  (forall q : Q, (40 <= q)%Q -> (q < 50)%Q ->
     pinoLevelToSeverity (JNumber (Finite q)) = Normal WARNING) /\
  (forall q : Q, (50 <= q)%Q -> (q < 60)%Q ->
     pinoLevelToSeverity (JNumber (Finite q)) = Normal ERROR) /\
  (forall q : Q, (60 <= q)%Q ->
     pinoLevelToSeverity (JNumber (Finite q)) = Normal CRITICAL) /\
  pinoLevelToSeverity (JNumber PosInfinity) = Normal CRITICAL /\
  (forall a b : number, number_le a b = true ->
     exists sa sb : LogSeverity,
       pinoLevelToSeverity (JNumber a) = Normal sa /\
       pinoLevelToSeverity (JNumber b) = Normal sb /\
       LogSeverity_tier sa <= LogSeverity_tier sb) /\
  pinoLevelToSeverity (JNumber (Finite 29)) = Normal DEBUG /\
  pinoLevelToSeverity (JNumber (Finite 30)) = Normal INFO /\
  pinoLevelToSeverity (JNumber (Finite 39)) = Normal INFO /\
  pinoLevelToSeverity (JNumber (Finite 40)) = Normal WARNING /\
  pinoLevelToSeverity (JNumber (Finite 49)) = Normal WARNING /\
  pinoLevelToSeverity (JNumber (Finite 50)) = Normal ERROR /\
  pinoLevelToSeverity (JNumber (Finite 59)) = Normal ERROR /\
  pinoLevelToSeverity (JNumber (Finite 60)) = Normal CRITICAL /\
  pinoLevelToSeverity (JNumber (Finite 1000)) = Normal CRITICAL.
Proof.
  assert (Hrange : forall (q : Q) (s : LogSeverity),
            severity_of_number (Finite q) = s ->
            pinoLevelToSeverity (JNumber (Finite q)) = Normal s).
  { intros q s <-. apply pinoLevelToSeverity_number. }
  repeat split;
    try (rewrite pinoLevelToSeverity_number; reflexivity).
  - intros q H0 H30. apply Hrange. unfold severity_of_number.
    destruct (number_lt_Finite q 30) as [_ ->]; [reflexivity | exact H30].
  - intros q H30 H40. apply Hrange. unfold severity_of_number.
    destruct (number_lt_Finite_false q 30) as [_ ->]; [| exact H30].
    destruct (number_lt_Finite q 40) as [_ ->]; [reflexivity | exact H40].
  - intros q H40 H50. apply Hrange. unfold severity_of_number.
    destruct (number_lt_Finite_false q 30) as [_ ->]; [| lra].
    destruct (number_lt_Finite_false q 40) as [_ ->]; [| exact H40].
    destruct (number_lt_Finite q 50) as [_ ->]; [reflexivity | exact H50].
  - intros q H50 H60. apply Hrange. unfold severity_of_number.
    destruct (number_lt_Finite_false q 30) as [_ ->]; [| lra].
    destruct (number_lt_Finite_false q 40) as [_ ->]; [| lra].
    destruct (number_lt_Finite_false q 50) as [_ ->]; [| exact H50].
    destruct (number_lt_Finite q 60) as [_ ->]; [reflexivity | exact H60].
  - intros q H60. apply Hrange. unfold severity_of_number.
    destruct (number_lt_Finite_false q 30) as [_ ->]; [| lra].
    destruct (number_lt_Finite_false q 40) as [_ ->]; [| lra].
    destruct (number_lt_Finite_false q 50) as [_ ->]; [| lra].
    destruct (number_lt_Finite_false q 60) as [_ ->]; [reflexivity | exact H60].
  - intros a b Hle.
    exists (severity_of_number a), (severity_of_number b).
    rewrite !pinoLevelToSeverity_number.
    split; [reflexivity | split; [reflexivity |]].
    now apply severity_of_number_monotonic.
Qed.

End Severity.

(** A witness of C5 on the sample runtime: 35 lies in [30,40). *)
Lemma pinoLevelToSeverity_ranges_monotonic_witness :
  @pinoLevelToSeverity Samples.runtime (JNumber (Finite 35)) = Normal INFO.
Proof.
  apply (proj1 (proj2 (@pinoLevelToSeverity_ranges_monotonic Samples.runtime)));
    unfold Qle, Qlt; simpl; lia.
Defined.

Section Destination.
Context `{Runtime}.

(** The properties left after destructuring. *)
Lemma rest_lookup (props : gmap string JSValue) (k : string) :
  delete "msg" (delete "hostname" (delete "pid"
    (delete "time" (delete "level" props)))) !! k =
  if bool_decide (k ∈ ["level"; "time"; "pid"; "hostname"; "msg"])
  then None
  else props !! k.
Proof.
  rewrite !lookup_delete.
  case_bool_decide as Hk.
  - repeat (apply elem_of_cons in Hk as [-> | Hk]); try reflexivity.
    inversion Hk.
  - repeat case_decide; subst; try reflexivity; exfalso; apply Hk; set_solver.
Qed.

(** The catch block: whatever throws in the try block, the raw line is
    forwarded once, with severity ERROR. *)
Lemma write_parse_failure (logLine : string) (x : JSError) :
  JSON_parse logLine = Throw x ->
  write logLine () =
  mkResult [ {[ "severity" := JString "ERROR"; "message" := JString logLine ]} ]
           () (Normal ()).
Proof.
  intros Hparse.
  unfold write, try_catch, lift, firebaseLogger_write, call, mbind, M_bind.
  cbn. rewrite Hparse. reflexivity.
Qed.

Lemma write_destructure_failure (logLine : string) (log : JSValue) (x : JSError) :
  JSON_parse logLine = Normal log ->
  own_properties log = Throw x ->
  write logLine () =
  mkResult [ {[ "severity" := JString "ERROR"; "message" := JString logLine ]} ]
           () (Normal ()).
Proof.
  intros Hparse Hprops.
  unfold write, try_catch, lift, firebaseLogger_write, call, mbind, M_bind.
  cbn. rewrite Hparse. cbn. unfold destructure. rewrite Hprops. reflexivity.
Qed.

Lemma write_severity_failure
  (logLine : string) (log : JSValue) (props : gmap string JSValue) (x : JSError) :
  JSON_parse logLine = Normal log ->
  own_properties log = Normal props ->
  pinoLevelToSeverity (get props "level") = Throw x ->
  write logLine () =
  mkResult [ {[ "severity" := JString "ERROR"; "message" := JString logLine ]} ]
           () (Normal ()).
Proof.
  intros Hparse Hprops Hsev.
  unfold write, try_catch, lift, firebaseLogger_write, call, mbind, M_bind.
  cbn. rewrite Hparse. cbn. unfold destructure. rewrite Hprops. cbn.
  rewrite Hsev. reflexivity.
Qed.

(** The try block, when nothing throws. *)
Lemma write_mapped
  (logLine : string) (log : JSValue) (props : gmap string JSValue)
  (sev : LogSeverity) :
  JSON_parse logLine = Normal log ->
  own_properties log = Normal props ->
  pinoLevelToSeverity (get props "level") = Normal sev ->
  write logLine () =
  mkResult
    [ spread {[ "severity" := JString (LogSeverity_string sev);
                "message" := nullish_or (get props "msg") (JString "") ]}
             (delete "msg" (delete "hostname" (delete "pid"
                (delete "time" (delete "level" props))))) ]
    () (Normal ()).
Proof.
  intros Hparse Hprops Hsev.
  unfold write, try_catch, lift, firebaseLogger_write, call, mbind, M_bind.
  cbn. rewrite Hparse. cbn. unfold destructure. rewrite Hprops. cbn.
  rewrite Hsev. reflexivity.
Qed.

(** The fields of the mapped record. *)
Lemma mapped_entry_fields
  (props : gmap string JSValue) (severity message : JSValue) :
  let entry :=
    spread {[ "severity" := severity; "message" := message ]}
           (delete "msg" (delete "hostname" (delete "pid"
              (delete "time" (delete "level" props))))) in
  entry !! "severity" = Some (default severity (props !! "severity")) /\
  entry !! "message" = Some (default message (props !! "message")) /\
  (forall k : string,
     k ∈ ["level"; "time"; "pid"; "hostname"; "msg"] -> entry !! k = None) /\
  (forall k : string,
     k ∉ ["severity"; "message"; "level"; "time"; "pid"; "hostname"; "msg"] ->
     entry !! k = props !! k).
Proof.
  intros entry. unfold entry. repeat split.
  - rewrite spread_lookup, rest_lookup.
    rewrite bool_decide_eq_false_2 by set_solver.
    destruct (props !! "severity"); reflexivity.
  - rewrite spread_lookup, rest_lookup.
    rewrite bool_decide_eq_false_2 by set_solver.
    destruct (props !! "message"); reflexivity.
  - intros k Hk. rewrite spread_lookup, rest_lookup.
    rewrite bool_decide_eq_true_2 by exact Hk.
    repeat (apply elem_of_cons in Hk as [-> | Hk]); try reflexivity.
    inversion Hk.
  - intros k Hk. rewrite spread_lookup, rest_lookup.
    rewrite bool_decide_eq_false_2 by set_solver.
    destruct (props !! k); [reflexivity |].
    rewrite lookup_insert_ne by set_solver.
    rewrite lookup_singleton_ne by set_solver. reflexivity.
Qed.

(** C4 (amended).  For every input line, [write] does not throw and
    forwards exactly one record to the native logger.  When [JSON.parse]
    throws, the record has severity ERROR and the raw line as its message;
    so it has when the line parses but the try block throws after that:
    the line parses to [null], or the level cannot be converted to a
    number.  Otherwise the record is the mapped one: its severity is the
    one chosen for the level and its message is [msg ?? ''] (each replaced
    by a field of the line with that name, if there is one), the fields
    [level], [time], [pid], [hostname] and [msg] are dropped, and every
    other field of the line is carried over. *)
Theorem write_forwards_exactly_one_record (logLine : string) :
  exists entry : LogEntry,
    write logLine () = mkResult [entry] () (Normal ()) /\
    (forall x : JSError,
       JSON_parse logLine = Throw x ->
       entry = {[ "severity" := JString "ERROR"; "message" := JString logLine ]}) /\
    (JSON_parse logLine = Normal JNull ->
       entry = {[ "severity" := JString "ERROR"; "message" := JString logLine ]}) /\
    (forall (log : JSValue) (props : gmap string JSValue) (x : JSError),
       JSON_parse logLine = Normal log ->
       own_properties log = Normal props ->
       pinoLevelToSeverity (get props "level") = Throw x ->
       entry = {[ "severity" := JString "ERROR"; "message" := JString logLine ]}) /\
    (forall (log : JSValue) (props : gmap string JSValue) (sev : LogSeverity),
       JSON_parse logLine = Normal log ->
       own_properties log = Normal props ->
       pinoLevelToSeverity (get props "level") = Normal sev ->
       entry !! "severity" =
         Some (default (JString (LogSeverity_string sev)) (props !! "severity")) /\
       entry !! "message" =
         Some (default (nullish_or (get props "msg") (JString ""))
                       (props !! "message")) /\
       (forall k : string,
          k ∈ ["level"; "time"; "pid"; "hostname"; "msg"] -> entry !! k = None) /\
       (forall k : string,
          k ∉ ["severity"; "message"; "level"; "time"; "pid"; "hostname"; "msg"] ->
          entry !! k = props !! k)).
Proof.
  destruct (JSON_parse logLine) as [log | x] eqn:Hparse.
  - destruct (own_properties log) as [props | x] eqn:Hprops.
    + destruct (pinoLevelToSeverity (get props "level")) as [sev | x] eqn:Hsev.
      * eexists. split; [exact (write_mapped _ _ _ _ Hparse Hprops Hsev) |].
        split; [intros ? [=] |].
        split; [intros [= ->]; discriminate Hprops |].
        split.
        { intros log' props' x' [= <-] Hprops' Hsev'.
          rewrite Hprops in Hprops'. injection Hprops' as <-. congruence. }
        intros log' props' sev' [= <-] Hprops' Hsev'.
        rewrite Hprops in Hprops'. injection Hprops' as <-.
        rewrite Hsev in Hsev'. injection Hsev' as <-.
        apply mapped_entry_fields.
      * eexists. split; [exact (write_severity_failure _ _ _ _ Hparse Hprops Hsev) |].
        split; [reflexivity |]. split; [reflexivity |].
        split; [reflexivity |].
        intros log' props' sev' [= <-] Hprops' Hsev'.
        rewrite Hprops in Hprops'. injection Hprops' as <-. congruence.
    + eexists. split; [exact (write_destructure_failure _ _ _ Hparse Hprops) |].
      split; [reflexivity |]. split; [reflexivity |].
      split; intros log' props' ? [= <-] Hprops'; congruence.
  - eexists. split; [exact (write_parse_failure _ _ Hparse) |].
    split; [reflexivity |]. split; [discriminate |].
    split; intros ? ? ? [=].
Qed.

(** C10 (amended).  When a line parses to a value other than [null] and
    its level is absent, or converts to NaN, every range comparison is
    false, the severity chosen is CRITICAL, and exactly one record is
    forwarded, with severity CRITICAL and message [msg ?? ''], each
    replaced by a field of the line with that name, if there is one.  A
    level that is not a number but converts to one is ranged like that
    number, and the record forwarded has the severity of that number:
    [null] and [false] convert to 0 and [true] to 1, which is DEBUG, and a
    string is ranged as the number it converts to. *)
Theorem write_level_absent_or_NaN
  (logLine : string) (log : JSValue) (props : gmap string JSValue) :
  JSON_parse logLine = Normal log ->
  own_properties log = Normal props ->
  (props !! "level" = None \/ ToNumber (get props "level") = Normal NaN ->
   (forall n : number, lessThan (get props "level") n = Normal false) /\
   pinoLevelToSeverity (get props "level") = Normal CRITICAL /\
   exists entry : LogEntry,
     write logLine () = mkResult [entry] () (Normal ()) /\
     entry !! "severity" =
       Some (default (JString "CRITICAL") (props !! "severity")) /\
     entry !! "message" =
       Some (default (nullish_or (get props "msg") (JString ""))
                     (props !! "message"))) /\
  (forall n : number,
     ToNumber (get props "level") = Normal n ->
     pinoLevelToSeverity (get props "level") = pinoLevelToSeverity (JNumber n) /\
     exists (sev : LogSeverity) (entry : LogEntry),
       pinoLevelToSeverity (JNumber n) = Normal sev /\
       write logLine () = mkResult [entry] () (Normal ()) /\
       entry !! "severity" =
         Some (default (JString (LogSeverity_string sev)) (props !! "severity")) /\
       entry !! "message" =
         Some (default (nullish_or (get props "msg") (JString ""))
                       (props !! "message"))) /\
  (props !! "level" = Some JNull ->
   ToNumber (get props "level") = Normal (Finite 0) /\
   pinoLevelToSeverity (get props "level") = Normal DEBUG) /\
  (forall b : bool,
     props !! "level" = Some (JBoolean b) ->
     ToNumber (get props "level") = Normal (Finite (if b then 1 else 0)) /\
     pinoLevelToSeverity (get props "level") = Normal DEBUG) /\
  (forall s : string,
     props !! "level" = Some (JString s) ->
     ToNumber (get props "level") = Normal (StringToNumber s) /\
     pinoLevelToSeverity (get props "level") =
     pinoLevelToSeverity (JNumber (StringToNumber s))).
Proof.
  intros Hparse Hprops.
  assert (Hranged : forall n : number,
            ToNumber (get props "level") = Normal n ->
            pinoLevelToSeverity (get props "level") = Normal (severity_of_number n)).
  { intros n Hn. rewrite pinoLevelToSeverity_ToNumber, Hn. reflexivity. }
  split; [| split; [| split; [| split]]].
  - intros Hlevel.
    assert (Hnan : ToNumber (get props "level") = Normal NaN).
    { destruct Hlevel as [Habsent | Hnan]; [| exact Hnan].
      unfold get. rewrite Habsent. reflexivity. }
    assert (Hlt : forall n : number, lessThan (get props "level") n = Normal false).
    { intros n. unfold lessThan. rewrite Hnan. reflexivity. }
    assert (Hsev : pinoLevelToSeverity (get props "level") = Normal CRITICAL).
    { unfold pinoLevelToSeverity. rewrite !Hlt. reflexivity. }
    split; [exact Hlt |]. split; [exact Hsev |].
    eexists. split; [exact (write_mapped _ _ _ _ Hparse Hprops Hsev) |].
    split; apply mapped_entry_fields.
  - intros n Hn. rewrite pinoLevelToSeverity_number.
    split; [exact (Hranged n Hn) |].
    exists (severity_of_number n). eexists.
    split; [reflexivity |].
    split; [exact (write_mapped _ _ _ _ Hparse Hprops (Hranged n Hn)) |].
    split; apply mapped_entry_fields.
  - intros Hlevel.
    assert (Hn : ToNumber (get props "level") = Normal (Finite 0))
      by (unfold get; rewrite Hlevel; reflexivity).
    split; [exact Hn |]. rewrite (Hranged _ Hn). reflexivity.
  - intros b Hlevel.
    assert (Hn : ToNumber (get props "level") =
                 Normal (Finite (if b then 1 else 0)))
      by (unfold get; rewrite Hlevel; destruct b; reflexivity).
    split; [exact Hn |]. rewrite (Hranged _ Hn). destruct b; reflexivity.
  - intros s Hlevel.
    assert (Hn : ToNumber (get props "level") = Normal (StringToNumber s))
      by (unfold get; rewrite Hlevel; reflexivity).
    split; [exact Hn |].
    rewrite (Hranged _ Hn), pinoLevelToSeverity_number. reflexivity.
Qed.

End Destination.

(** The model on the sample lines. *)
Example write_garbage_line :
  @write Samples.runtime Samples.line_garbage () =
  mkResult [ {[ "severity" := JString "ERROR"; "message" := JString "not json" ]} ]
           () (Normal ()).
Proof. reflexivity. Qed.

Example write_info_line :
  @write Samples.runtime Samples.line_info () =
  mkResult [ {[ "severity" := JString "INFO"; "message" := JString "hello";
                "user" := JString "ada" ]} ]
           () (Normal ()).
Proof. vm_compute. reflexivity. Qed.

Example write_empty_object_line :
  @write Samples.runtime Samples.line_empty_object () =
  mkResult [ {[ "severity" := JString "CRITICAL"; "message" := JString "" ]} ]
           () (Normal ()).
Proof. reflexivity. Qed.

(** C4, counterexample: the line [null] parses, to the value [null], and
    what is forwarded is not a mapped record but the raw line with
    severity ERROR. *)
Lemma write_null_line_is_fallback :
  @JSON_parse Samples.runtime Samples.line_null = Normal JNull /\
  @write Samples.runtime Samples.line_null () =
  mkResult [ {[ "severity" := JString "ERROR"; "message" := JString "null" ]} ]
           () (Normal ()).
Proof.
  split; reflexivity.
Qed.

(** C4, witness: the sample pino line is forwarded as one record with
    severity INFO, its message, and its bound field, without the pid. *)
Lemma write_forwards_exactly_one_record_witness :
  exists entry : LogEntry,
    @write Samples.runtime Samples.line_info () =
      mkResult [entry] () (Normal ()) /\
    entry !! "severity" = Some (JString "INFO") /\
    entry !! "message" = Some (JString "hello") /\
    entry !! "pid" = None /\
    entry !! "user" = Some (JString "ada").
Proof.
  destruct (@write_forwards_exactly_one_record Samples.runtime Samples.line_info)
    as (entry & Hrun & _ & _ & _ & Hmapped).
  destruct (Hmapped _ _ INFO eq_refl eq_refl eq_refl)
    as (Hseverity & Hmessage & Hdropped & Hkept).
  exists entry. split; [exact Hrun |].
  split; [exact Hseverity |]. split; [exact Hmessage |].
  split; [apply Hdropped; set_solver |].
  rewrite Hkept by set_solver. reflexivity.
Defined.

(** C10, counterexample: a line whose level is [null] (not a number) is
    forwarded with severity DEBUG, since [null < 30] holds; and a line
    without a level but with a field [severity] is forwarded with that
    field as its severity. *)
Lemma write_level_null_is_DEBUG :
  (@JSON_parse Samples.runtime Samples.line_level_null =
     Normal (JObject {[ "level" := JNull ]}) /\
   @write Samples.runtime Samples.line_level_null () =
     mkResult [ {[ "severity" := JString "DEBUG"; "message" := JString "" ]} ]
              () (Normal ())) /\
  (@JSON_parse Samples.runtime Samples.line_severity_only =
     Normal (JObject {[ "severity" := JString "INFO" ]}) /\
   @write Samples.runtime Samples.line_severity_only () =
     mkResult [ {[ "severity" := JString "INFO"; "message" := JString "" ]} ]
              () (Normal ())).
Proof.
  repeat split; reflexivity.
Qed.

(** C10, witness: the empty object has no level and is forwarded with
    severity CRITICAL and the empty message; the line whose level is
    [null] is ranged as the number 0 and forwarded with severity DEBUG. *)
Lemma write_level_absent_or_NaN_witness :
  (exists entry : LogEntry,
     @write Samples.runtime Samples.line_empty_object () =
       mkResult [entry] () (Normal ()) /\
     entry !! "severity" = Some (JString "CRITICAL") /\
     entry !! "message" = Some (JString "")) /\
  (@pinoLevelToSeverity Samples.runtime JNull =
     @pinoLevelToSeverity Samples.runtime (JNumber (Finite 0)) /\
   exists (sev : LogSeverity) (entry : LogEntry),
     @pinoLevelToSeverity Samples.runtime (JNumber (Finite 0)) = Normal sev /\
     @write Samples.runtime Samples.line_level_null () =
       mkResult [entry] () (Normal ()) /\
     entry !! "severity" = Some (JString (LogSeverity_string sev)) /\
     entry !! "message" = Some (JString "")).
Proof.
  split.
  - exact (proj2 (proj2
      (proj1 (@write_level_absent_or_NaN Samples.runtime Samples.line_empty_object
                (JObject ∅) ∅ eq_refl eq_refl)
             (or_introl eq_refl)))).
  - exact (proj1 (proj2
      (@write_level_absent_or_NaN Samples.runtime Samples.line_level_null
         (JObject {[ "level" := JNull ]}) {[ "level" := JNull ]}
         eq_refl eq_refl))
      (Finite 0) eq_refl).
Defined.

End PinoLoggerSpec.

(* ===================================================================== *)
(** * Properties of the leveled logger facade and of mode selection *)
(* ===================================================================== *)

Module FunctionLoggerSpec.
Import PinoLogger FunctionLogger.

(** The three signals, any one of which selects development mode. *)
Lemma isLocalEnvironment_signals (env : ProcessEnv) :
  isLocalEnvironment env = true <->
  env !! "FUNCTIONS_EMULATOR" = Some "true" \/
  env !! "NODE_ENV" = Some "test" \/
  env !! "NODE_ENV" = Some "development".
Proof.
  unfold isLocalEnvironment.
  rewrite !orb_true_iff, !bool_decide_eq_true. tauto.
Qed.

(** The facade tests the same condition as the adapter. *)
Lemma logger_mode (env : ProcessEnv) :
  logger env =
  if isLocalEnvironment env then TSLogger (getMinLevel env) else firebaseLogger.
Proof. reflexivity. Qed.

Lemma getMinLevel_named (env : ProcessEnv) (l : Level) :
  env !! "LOG_LEVEL" = Some (Level_name l) -> getMinLevel env = logLevelId l.
Proof.
  intros Hset. unfold getMinLevel. rewrite Hset. destruct l; reflexivity.
Qed.

(** The minimum level on some environments. *)
Example getMinLevel_warn : getMinLevel {[ "LOG_LEVEL" := "warn" ]} = 4.
Proof. reflexivity. Qed.

Example getMinLevel_invalid : getMinLevel {[ "LOG_LEVEL" := "invalid" ]} = 0.
Proof. reflexivity. Qed.

Example getMinLevel_empty_string : getMinLevel {[ "LOG_LEVEL" := "" ]} = 0.
Proof. reflexivity. Qed.

Example logger_production :
  logger {[ "NODE_ENV" := "production"; "LOG_LEVEL" := "warn" ]} = firebaseLogger.
Proof. reflexivity. Qed.

Example logger_emulator :
  logger {[ "FUNCTIONS_EMULATOR" := "true"; "LOG_LEVEL" := "warn" ]} = TSLogger 4.
Proof. reflexivity. Qed.

(** C9.  Development mode is selected exactly when one of the three
    signals qualifies: [FUNCTIONS_EMULATOR] is [true], [NODE_ENV] is
    [test], or [NODE_ENV] is [development].  The selection depends on the
    environment through these variables only; setting any one of them to
    a qualifying value selects development mode whatever the rest of the
    environment is; and the logger facade and the structured logger
    adapter select by the same condition. *)
Theorem development_mode_selection :
  (forall env : ProcessEnv,
     isLocalEnvironment env = true <->
     env !! "FUNCTIONS_EMULATOR" = Some "true" \/
     env !! "NODE_ENV" = Some "test" \/
     env !! "NODE_ENV" = Some "development") /\
  (forall env env' : ProcessEnv,
     env !! "FUNCTIONS_EMULATOR" = env' !! "FUNCTIONS_EMULATOR" ->
     env !! "NODE_ENV" = env' !! "NODE_ENV" ->
     isLocalEnvironment env = isLocalEnvironment env') /\
  (forall env : ProcessEnv,
     isLocalEnvironment (<["FUNCTIONS_EMULATOR" := "true"]> env) = true) /\
  (forall env : ProcessEnv,
     isLocalEnvironment (<["NODE_ENV" := "test"]> env) = true) /\
  (forall env : ProcessEnv,
     isLocalEnvironment (<["NODE_ENV" := "development"]> env) = true) /\
  (forall env : ProcessEnv,
     logger env = TSLogger (getMinLevel env) <-> isLocalEnvironment env = true) /\
  (forall env : ProcessEnv,
     logger env = firebaseLogger <-> isLocalEnvironment env = false) /\
  (forall (env : ProcessEnv) (level : option string),
     pino_backend (createLogger env level) = PinoPretty <->
     isLocalEnvironment env = true) /\
  (forall (env : ProcessEnv) (level : option string),
     pino_backend (createLogger env level) = FirebaseDestination <->
     isLocalEnvironment env = false).
Proof.
  split; [exact isLocalEnvironment_signals |].
  split.
  { intros env env' Hemulator Hnode. unfold isLocalEnvironment.
    rewrite Hemulator, Hnode. reflexivity. }
  split.
  { intros env. apply isLocalEnvironment_signals. left.
    apply lookup_insert_eq. }
  split.
  { intros env. apply isLocalEnvironment_signals. right. left.
    apply lookup_insert_eq. }
  split.
  { intros env. apply isLocalEnvironment_signals. right. right.
    apply lookup_insert_eq. }
  split.
  { intros env. rewrite logger_mode.
    destruct (isLocalEnvironment env); split; congruence. }
  split.
  { intros env. rewrite logger_mode.
    destruct (isLocalEnvironment env); split; congruence. }
  split.
  - intros env level. cbn.
    destruct (isLocalEnvironment env); split; congruence.
  - intros env level. cbn.
    destruct (isLocalEnvironment env); split; congruence.
Qed.

(** C9, witness: an environment with only [NODE_ENV=test] and one where
    [LOG_LEVEL] is set besides select the same mode. *)
Lemma development_mode_selection_witness :
  isLocalEnvironment {[ "NODE_ENV" := "test" ]} =
  isLocalEnvironment {[ "NODE_ENV" := "test"; "LOG_LEVEL" := "warn" ]}.
Proof.
  apply (proj1 (proj2 development_mode_selection)); reflexivity.
Defined.

(** C8, counterexample: with [LOG_LEVEL] unset the level defaults to
    [debug], so the minimum is 2, not 0. *)
Lemma getMinLevel_unset_is_2 :
  getMinLevel ∅ = 2 /\ getMinLevel ∅ <> 0.
Proof.
  split; [reflexivity | discriminate].
Qed.

(** C8 (amended).  The minimum level is 2, 3, 4, 5 for [LOG_LEVEL] equal
    to [debug], [info], [warn], [error]; it is 2 when [LOG_LEVEL] is
    unset (the default is [debug]); it is 0 for any other value.  In
    development mode, with [LOG_LEVEL] naming one of the four levels, a
    message is emitted exactly when its level is at or above that level:
    messages strictly below the minimum are suppressed. *)
Theorem getMinLevel_and_filter :
  (forall env : ProcessEnv,
     getMinLevel (<["LOG_LEVEL" := "debug"]> env) = 2 /\
     getMinLevel (<["LOG_LEVEL" := "info"]> env) = 3 /\
     getMinLevel (<["LOG_LEVEL" := "warn"]> env) = 4 /\
     getMinLevel (<["LOG_LEVEL" := "error"]> env) = 5) /\
  (forall env : ProcessEnv,
     env !! "LOG_LEVEL" = None -> getMinLevel env = 2) /\
  (forall (env : ProcessEnv) (value : string),
     env !! "LOG_LEVEL" = Some value ->
     (forall l : Level, value <> Level_name l) ->
     getMinLevel env = 0) /\
  (forall (env : ProcessEnv) (configured l : Level),
     isLocalEnvironment env = true ->
     env !! "LOG_LEVEL" = Some (Level_name configured) ->
     (logLevelId l < getMinLevel env -> emitted (logger env) l = false) /\
     (getMinLevel env <= logLevelId l -> emitted (logger env) l = true) /\
     getMinLevel env = logLevelId configured).
Proof.
  split.
  { intros env. unfold getMinLevel. rewrite !lookup_insert_eq.
    repeat split; reflexivity. }
  split.
  { intros env Hunset. unfold getMinLevel. rewrite Hunset. reflexivity. }
  split.
  { intros env value Hset Hother. unfold getMinLevel. rewrite Hset. cbn.
    destruct (String.eqb_spec value "debug") as [-> | _];
      [destruct (Hother debug); reflexivity |].
    destruct (String.eqb_spec value "info") as [-> | _];
      [destruct (Hother info); reflexivity |].
    destruct (String.eqb_spec value "warn") as [-> | _];
      [destruct (Hother warn); reflexivity |].
    destruct (String.eqb_spec value "error") as [-> | _];
      [destruct (Hother error); reflexivity |].
    reflexivity. }
  intros env configured l Hlocal Hset.
  rewrite logger_mode, Hlocal. cbn [emitted].
  split; [| split].
  - intros Hbelow. apply Nat.leb_gt. exact Hbelow.
  - intros Habove. apply Nat.leb_le. exact Habove.
  - apply getMinLevel_named. exact Hset.
Qed.

(** C8, witness: in the emulator with [LOG_LEVEL=warn], [info] is
    suppressed and [warn] is emitted. *)
Lemma getMinLevel_and_filter_witness :
  emitted (logger {[ "FUNCTIONS_EMULATOR" := "true"; "LOG_LEVEL" := "warn" ]})
          info = false /\
  emitted (logger {[ "FUNCTIONS_EMULATOR" := "true"; "LOG_LEVEL" := "warn" ]})
          warn = true.
Proof.
  assert (Hlocal : isLocalEnvironment
            {[ "FUNCTIONS_EMULATOR" := "true"; "LOG_LEVEL" := "warn" ]} = true)
    by (vm_compute; reflexivity).
  assert (Hset : ({[ "FUNCTIONS_EMULATOR" := "true"; "LOG_LEVEL" := "warn" ]}
                    : ProcessEnv) !! "LOG_LEVEL" = Some (Level_name warn))
    by (vm_compute; reflexivity).
  destruct (proj2 (proj2 (proj2 getMinLevel_and_filter)) _ warn info Hlocal Hset)
    as (Hbelow & _ & _).
  destruct (proj2 (proj2 (proj2 getMinLevel_and_filter)) _ warn warn Hlocal Hset)
    as (_ & Habove & _).
  split; [apply Hbelow | apply Habove]; vm_compute; lia.
Defined.

End FunctionLoggerSpec.

(* ===================================================================== *)
(** * Properties of the capture-context walk *)
(* ===================================================================== *)

Module InitSentrySpec.
Import JS Sentry JSFacts.

(** One field of a report under one more write of a capture context. *)
Lemma beforeSend_tags (ctx : ErrorCaptureContext) (event : Event) (k : string) :
  event_tags (beforeSend ctx event) !! k =
  match tags_of ctx !! k with
  | Some v => Some v
  | None => event_tags event !! k
  end.
Proof.
  unfold beforeSend, tags_of. cbn. destruct (tags ctx) as [t |]; cbn.
  - apply spread_lookup.
  - rewrite lookup_empty. reflexivity.
Qed.

Lemma beforeSend_extra (ctx : ErrorCaptureContext) (event : Event) (k : string) :
  event_extra (beforeSend ctx event) !! k =
  match extra_of ctx !! k with
  | Some v => Some v
  | None => event_extra event !! k
  end.
Proof.
  unfold beforeSend, extra_of. cbn. destruct (extra ctx) as [t |]; cbn.
  - apply spread_lookup.
  - rewrite lookup_empty. reflexivity.
Qed.

(** The walk applies the capture contexts of [layers], each once, the
    outermost first. *)
Lemma walk_is_fold :
  forall (exception : Exception) (event : Event),
    processErrorWithSentryCaptureContext event exception =
    foldl (fun ev ctx => beforeSend ctx ev) event (layers exception).
Proof.
  fix IH 1. intros [v | message cause | message ctx [c |]] event; cbn;
    try reflexivity.
  destruct (truthy c); [apply IH | reflexivity].
Qed.

(** On a chain of context-carrying errors the walk reaches every link. *)
Lemma layers_error_chain
  (top : string * ErrorCaptureContext)
  (causes : list (string * ErrorCaptureContext)) :
  layers (error_chain top causes) = snd top :: map snd causes.
Proof.
  revert top. induction causes as [| cause causes IH]; intros top; cbn.
  - reflexivity.
  - rewrite <- IH. destruct causes; reflexivity.
Qed.

(** A key of a mapping after a sequence of writes: the last write to it,
    or what was there. *)
Lemma truthy_chain_of (top : Link) (causes : list Link) :
  truthy (chain_of top causes) = true.
Proof.
  destruct causes, top; reflexivity.
Qed.

Lemma layers_chain_of (top : Link) (causes : list Link) :
  layers (chain_of top causes) = carried_prefix (top :: causes).
Proof.
  revert top. induction causes as [| cause causes IH]; intros top.
  - destruct top; reflexivity.
  - destruct top as [message ctx | message]; [| reflexivity].
    change (layers (chain_of (Carrying message ctx) (cause :: causes)))
      with (ctx :: (if truthy (chain_of cause causes)
                    then layers (chain_of cause causes) else [])).
    rewrite truthy_chain_of, IH. reflexivity.
Qed.

(** The walk in place makes one call of [beforeSend] for each layer,
    outermost first, ends normally, and leaves the event the functional
    walk computes. *)
Lemma walk_in_place_run (exception : Exception) (event : Event) :
  processErrorWithSentryCaptureContext_in_place exception event =
  Eff.mkResult (layers exception)
    (processErrorWithSentryCaptureContext event exception) (Normal ()).
Proof.
  revert exception event.
  fix IH 1. intros exception event.
  destruct exception as [v | message cause | message ctx cause];
    [reflexivity | reflexivity |].
  destruct cause as [c |]; [| reflexivity].
  cbn [processErrorWithSentryCaptureContext_in_place
       processErrorWithSentryCaptureContext layers].
  unfold mbind, Eff.M_bind, beforeSend_call, Eff.call, Eff.modify. cbn.
  destruct (truthy c); [| reflexivity].
  rewrite IH. reflexivity.
Qed.

Section LastWrite.
Context {V : Type}.
Context (field : Event -> gmap string V) (written : ErrorCaptureContext -> gmap string V).
Context (Hwrite : forall ctx event k,
           field (beforeSend ctx event) !! k =
           match written ctx !! k with
           | Some v => Some v
           | None => field event !! k
           end).

Lemma fold_lookup (cs : list ErrorCaptureContext) (event : Event) (k : string) :
  field (foldl (fun ev ctx => beforeSend ctx ev) event cs) !! k =
  foldl (fun acc ctx => match written ctx !! k with
                        | Some v => Some v
                        | None => acc
                        end)
        (field event !! k) cs.
Proof.
  revert event. induction cs as [| ctx cs IH]; intros event; cbn.
  - reflexivity.
  - rewrite IH, Hwrite. reflexivity.
Qed.

Lemma fold_untouched (cs : list ErrorCaptureContext) (k : string) (acc : option V) :
  (forall c, c ∈ cs -> written c !! k = None) ->
  foldl (fun acc ctx => match written ctx !! k with
                        | Some v => Some v
                        | None => acc
                        end) acc cs = acc.
Proof.
  revert acc. induction cs as [| ctx cs IH]; intros acc Hnone; cbn.
  - reflexivity.
  - rewrite (Hnone ctx) by set_solver. apply IH.
    intros c Hc. apply Hnone. set_solver.
Qed.

Lemma fold_last_writer
  (pre post : list ErrorCaptureContext) (ctx : ErrorCaptureContext)
  (event : Event) (k : string) (v : V) :
  written ctx !! k = Some v ->
  (forall c, c ∈ post -> written c !! k = None) ->
  field (foldl (fun ev c => beforeSend c ev) event (pre ++ ctx :: post)%list) !! k =
  Some v.
Proof.
  intros Hctx Hpost.
  rewrite fold_lookup, foldl_app. cbn. rewrite Hctx.
  apply fold_untouched. exact Hpost.
Qed.

Lemma fold_is_Some (cs : list ErrorCaptureContext) (event : Event) (k : string) :
  is_Some (field (foldl (fun ev c => beforeSend c ev) event cs) !! k) <->
  is_Some (field event !! k) \/ exists c, c ∈ cs /\ is_Some (written c !! k).
Proof.
  revert event. induction cs as [| ctx cs IH]; intros event; cbn.
  - split; [auto | intros [Hk | (c & Hc & _)]; [exact Hk | inversion Hc]].
  - rewrite IH, Hwrite. split.
    + intros [Hk | (c & Hc & Hk)].
      * destruct (written ctx !! k) as [v |] eqn:Hctx; [| auto].
        right. exists ctx. split; [set_solver | rewrite Hctx; eauto].
      * right. exists c. split; [set_solver | exact Hk].
    + intros [Hk | (c & Hc & Hk)].
      * left. destruct (written ctx !! k); eauto.
      * apply elem_of_cons in Hc as [-> | Hc].
        -- left. destruct Hk as [v ->]. eauto.
        -- right. eauto.
Qed.

End LastWrite.

(** C1.  The pre-send hook applies the capture context of each layer of
    the chain, walking from the outermost error to the innermost cause.
    After the walk the keys of the report's tags are those it had and
    those of every layer (the union), and on a collision, in tags or in
    extra-data, the value of the innermost layer that writes the key is
    the one in the report: the root layer wins.  On a chain every link of
    which is a context-carrying error the layers are all the links. *)
Theorem walk_outermost_first_root_wins (event : Event) (exception : Exception) :
  let report := initSentry_beforeSend event exception in
  report = foldl (fun ev ctx => beforeSend ctx ev) event (layers exception) /\
  (forall k : string,
     k ∈ dom (event_tags report) <->
     k ∈ dom (event_tags event) \/
     exists ctx, ctx ∈ layers exception /\ k ∈ dom (tags_of ctx)) /\
  (forall (pre post : list ErrorCaptureContext) (ctx : ErrorCaptureContext)
          (k v : string),
     layers exception = (pre ++ ctx :: post)%list ->
     tags_of ctx !! k = Some v ->
     (forall c, c ∈ post -> tags_of c !! k = None) ->
     event_tags report !! k = Some v) /\
  (forall (pre post : list ErrorCaptureContext) (ctx : ErrorCaptureContext)
          (k : string) (v : JSValue),
     layers exception = (pre ++ ctx :: post)%list ->
     extra_of ctx !! k = Some v ->
     (forall c, c ∈ post -> extra_of c !! k = None) ->
     event_extra report !! k = Some v) /\
  (forall (top : string * ErrorCaptureContext)
          (causes : list (string * ErrorCaptureContext)),
     exception = error_chain top causes ->
     layers exception = snd top :: map snd causes).
Proof.
  intros report. unfold report, initSentry_beforeSend.
  rewrite walk_is_fold. split; [reflexivity |]. split; [| split; [| split]];
    [| | | intros top causes ->; apply layers_error_chain].
  - intros k. rewrite !elem_of_dom.
    rewrite (fold_is_Some event_tags tags_of beforeSend_tags).
    split; intros [Hk | (ctx & Hctx & Hk)]; [left | right | left | right];
      try exact Hk; exists ctx; (split; [exact Hctx |]).
    + apply elem_of_dom. exact Hk.
    + apply elem_of_dom in Hk. exact Hk.
  - intros pre post ctx k v -> Hctx Hpost.
    apply (fold_last_writer event_tags tags_of beforeSend_tags); assumption.
  - intros pre post ctx k v -> Hctx Hpost.
    apply (fold_last_writer event_extra extra_of beforeSend_extra); assumption.
Qed.

(** C1, witness: on the three-level chain of the test the root layer is
    the last of the walk, and its extra-data field [level] is the one in
    the report. *)
Lemma walk_outermost_first_root_wins_witness :
  event_extra (initSentry_beforeSend Samples.empty_event Samples.topError)
    !! "level" = Some (JString "root").
Proof.
  apply (proj1 (proj2 (proj2 (proj2
           (walk_outermost_first_root_wins Samples.empty_event Samples.topError))))
           [ {| extra := Some {[ "level" := JString "top" ]};
                tags := Some {[ "top" := "true" ]};
                contexts := None; fingerprint := None |};
             {| extra := Some {[ "level" := JString "middle" ]};
                tags := Some {[ "middle" := "true" ]};
                contexts := None; fingerprint := None |} ]
           []
           {| extra := Some {[ "level" := JString "root" ]};
              tags := Some {[ "root" := "true" ]};
              contexts := None; fingerprint := None |}).
  - reflexivity.
  - reflexivity.
  - intros c Hc. inversion Hc.
Defined.

(** The report of the test: the tags of all three layers, and the
    extra-data field of the root. *)
Example three_level_chain_report :
  initSentry_beforeSend Samples.empty_event Samples.topError =
  {| event_extra := {[ "level" := JString "root" ]};
     event_tags := {[ "top" := "true"; "middle" := "true"; "root" := "true" ]};
     event_contexts := ∅;
     event_fingerprint := None;
     event_handled := None |}.
Proof.
  vm_compute. reflexivity.
Qed.

(** C2, counterexample: on the chain of the test the outer layers write
    the extra-data field [level] first ([top], then [middle]) and the
    inner root layer writes it last; the report holds the value of the
    root, so the later, inner write did overwrite the earlier ones. *)
Lemma inner_write_overwrites_outer :
  layers Samples.topError =
    [ {| extra := Some {[ "level" := JString "top" ]};
         tags := Some {[ "top" := "true" ]};
         contexts := None; fingerprint := None |};
      {| extra := Some {[ "level" := JString "middle" ]};
         tags := Some {[ "middle" := "true" ]};
         contexts := None; fingerprint := None |};
      {| extra := Some {[ "level" := JString "root" ]};
         tags := Some {[ "root" := "true" ]};
         contexts := None; fingerprint := None |} ] /\
  event_extra (initSentry_beforeSend Samples.empty_event Samples.topError)
    !! "level" = Some (JString "root") /\
  JString "root" <> JString "top".
Proof.
  split; [reflexivity |]. split; [reflexivity | discriminate].
Qed.

(** C2 (amended).  The cause chain is walked once, from the outermost
    error inwards: [beforeSend] is called once for each layer, in that
    order, and not again, and the report is the event with the capture
    context of each layer applied once, in that order.  On a chain every
    link of which carries a context there are as many calls as links; on
    any chain the calls are those of the links before the first ordinary
    error.  In tags and in extra-data a key holds the last value written
    to it: the write of a later (inner) layer overwrites that of an
    earlier (outer) one, and a key no layer writes keeps what the event
    had. *)
Theorem walk_once_last_writer_wins
  (event : Event) (exception : Exception) (k : string) :
  let walk := processErrorWithSentryCaptureContext_in_place exception event in
  let report := initSentry_beforeSend event exception in
  Eff.trace walk = layers exception /\
  Eff.final walk = report /\
  Eff.outcome walk = Normal () /\
  (forall (top : string * ErrorCaptureContext)
          (causes : list (string * ErrorCaptureContext)),
     exception = error_chain top causes ->
     Eff.trace walk = snd top :: map snd causes /\
     length (Eff.trace walk) = S (length causes)) /\
  (forall (top : Link) (causes : list Link),
     exception = chain_of top causes ->
     Eff.trace walk = carried_prefix (top :: causes)) /\
  report = foldl (fun ev ctx => beforeSend ctx ev) event (Eff.trace walk) /\
  event_tags report !! k =
    foldl (fun acc ctx => match tags_of ctx !! k with
                          | Some v => Some v
                          | None => acc
                          end)
          (event_tags event !! k) (Eff.trace walk) /\
  event_extra report !! k =
    foldl (fun acc ctx => match extra_of ctx !! k with
                          | Some v => Some v
                          | None => acc
                          end)
          (event_extra event !! k) (Eff.trace walk) /\
  (forall (message : string) (outer : ErrorCaptureContext) (cause : Exception),
     exception = ErrorWithSentryCaptureContext message outer (Some cause) ->
     truthy cause = true ->
     Eff.trace walk =
       outer ::
       Eff.trace (processErrorWithSentryCaptureContext_in_place cause
                    (beforeSend outer event)) /\
     report = initSentry_beforeSend (beforeSend outer event) cause).
Proof.
  intros walk report. unfold walk, report, initSentry_beforeSend.
  rewrite walk_in_place_run. cbn [Eff.trace Eff.final Eff.outcome].
  rewrite walk_is_fold.
  split; [reflexivity |]. split; [reflexivity |]. split; [reflexivity |].
  split.
  { intros top causes ->. rewrite layers_error_chain.
    split; [reflexivity |]. cbn. rewrite length_map. reflexivity. }
  split.
  { intros top causes ->. apply layers_chain_of. }
  split; [reflexivity |]. split; [| split].
  - apply (fold_lookup event_tags tags_of beforeSend_tags).
  - apply (fold_lookup event_extra extra_of beforeSend_extra).
  - intros message outer cause -> Htruthy.
    rewrite walk_in_place_run. cbn [Eff.trace layers].
    rewrite Htruthy. split; [reflexivity |].
    rewrite walk_is_fold. reflexivity.
Qed.

(** C2, witness: on the chain of the test, three links that all carry a
    context, [beforeSend] is called three times, on the top, the middle
    and the root error in that order; and the walk is the call on the top
    error followed by the walk over the middle error. *)
Lemma walk_once_last_writer_wins_witness :
  (Eff.trace
     (processErrorWithSentryCaptureContext_in_place Samples.topError
        Samples.empty_event) =
   [ {| extra := Some {[ "level" := JString "top" ]};
        tags := Some {[ "top" := "true" ]};
        contexts := None; fingerprint := None |};
     {| extra := Some {[ "level" := JString "middle" ]};
        tags := Some {[ "middle" := "true" ]};
        contexts := None; fingerprint := None |};
     {| extra := Some {[ "level" := JString "root" ]};
        tags := Some {[ "root" := "true" ]};
        contexts := None; fingerprint := None |} ] /\
   length
     (Eff.trace
        (processErrorWithSentryCaptureContext_in_place Samples.topError
           Samples.empty_event)) = 3) /\
  (Eff.trace
     (processErrorWithSentryCaptureContext_in_place Samples.topError
        Samples.empty_event) =
   {| extra := Some {[ "level" := JString "top" ]};
      tags := Some {[ "top" := "true" ]};
      contexts := None; fingerprint := None |} ::
   Eff.trace
     (processErrorWithSentryCaptureContext_in_place Samples.middleCause
        (beforeSend
           {| extra := Some {[ "level" := JString "top" ]};
              tags := Some {[ "top" := "true" ]};
              contexts := None; fingerprint := None |}
           Samples.empty_event)) /\
   initSentry_beforeSend Samples.empty_event Samples.topError =
   initSentry_beforeSend
     (beforeSend
        {| extra := Some {[ "level" := JString "top" ]};
           tags := Some {[ "top" := "true" ]};
           contexts := None; fingerprint := None |}
        Samples.empty_event)
     Samples.middleCause).
Proof.
  split.
  - apply (proj1 (proj2 (proj2 (proj2
             (walk_once_last_writer_wins Samples.empty_event Samples.topError
                "level"))))
             ("Top error",
              {| extra := Some {[ "level" := JString "top" ]};
                 tags := Some {[ "top" := "true" ]};
                 contexts := None; fingerprint := None |})
             [ ("Middle cause",
                {| extra := Some {[ "level" := JString "middle" ]};
                   tags := Some {[ "middle" := "true" ]};
                   contexts := None; fingerprint := None |});
               ("Root cause",
                {| extra := Some {[ "level" := JString "root" ]};
                   tags := Some {[ "root" := "true" ]};
                   contexts := None; fingerprint := None |}) ]
             eq_refl).
  - apply (proj2 (proj2 (proj2 (proj2 (proj2 (proj2 (proj2 (proj2
             (walk_once_last_writer_wins Samples.empty_event Samples.topError
                "level"))))))))
             "Top error" _ Samples.middleCause eq_refl eq_refl).
Defined.

End InitSentrySpec.

(* ===================================================================== *)
(** * Properties of the handler wrappers *)
(* ===================================================================== *)

Module WrapperSpec.
Import JS Eff Sentry.

Ltac run_wrapper :=
  unfold sentryOnWriteV1Wrapper, sentryWrapOnDocumentChange,
    sentryInvocationV1Wrapper, sentryInvocationV2Wrapper,
    sentryConfigurationWrapper, sentryCaptureUnhandledExceptionWrapper,
    try_finally, try_catch, startSpan, withScope, flush, captureException,
    logger_error, throw, lift, modify, call, mbind, M_bind, mret, M_ret;
  cbn.

(** The processor [markEventUnhandled] adds is the last of the scope, and
    sets the flag [handled] of every event it processes to false. *)
Lemma markEventUnhandled_processor (scope : Scope) (event : Event) :
  exists processor : Event -> Event,
    scope_eventProcessors (markEventUnhandled scope) =
      (scope_eventProcessors scope ++ [processor])%list /\
    event_handled (processor event) = Some false.
Proof.
  eexists. split; reflexivity.
Qed.

Section Invocation.
Context {X R : Type} (env : ProcessEnv).

(** A handler that resolves goes through the capturing wrapper
    unchanged. *)
Lemma capture_wrapper_resolved
  (handler : M Scope (Call X) X R) (captureContext : option (Scope -> Scope))
  (scope : Scope) (v : R) :
  outcome (handler scope) = Normal v ->
  sentryCaptureUnhandledExceptionWrapper env handler captureContext scope =
  handler scope.
Proof.
  intros Hresolved. unfold sentryCaptureUnhandledExceptionWrapper, try_catch.
  rewrite Hresolved. reflexivity.
Qed.

(** A handler that rejects is logged (outside production), captured, and
    its error thrown again. *)
Lemma capture_wrapper_rejected
  (handler : M Scope (Call X) X R) (captureContext : option (Scope -> Scope))
  (scope : Scope) (e : X) :
  outcome (handler scope) = Throw e ->
  sentryCaptureUnhandledExceptionWrapper env handler captureContext scope =
  mkResult
    (trace (handler scope) ++
     (if bool_decide (env !! "NODE_ENV" ≠ Some "production")
      then [LoggerError "Unhandled exception" e] else []) ++
     [CaptureException e
        (fun scope => from_option (fun f => f (markEventUnhandled scope))
                                  (markEventUnhandled scope) captureContext)])%list
    (final (handler scope)) (Throw e).
Proof.
  intros Hrejected. run_wrapper. rewrite Hrejected.
  destruct captureContext; case_bool_decide; reflexivity.
Qed.

(** The configuration wrapper around any piece of work. *)
Lemma configuration_wrapper_run
  (context : StartSpanOptions) (configure : M Scope (Call X) X ())
  (work : M Scope (Call X) X R) (scope configured : Scope)
  (tc : list (Call X)) :
  configure scope = mkResult tc configured (Normal ()) ->
  sentryConfigurationWrapper context configure work scope =
  mkResult ([StartSpan context; WithScope] ++ tc ++ trace (work configured)
              ++ [Flush 5000])%list
           scope (outcome (work configured)).
Proof.
  intros Hconfigure. run_wrapper. rewrite Hconfigure. cbn.
  destruct (work configured) as [tw s2 [v | e]]; cbn;
    rewrite <- ?app_assoc; reflexivity.
Qed.

Lemma filter_length_app (p : Call X -> bool) (l1 l2 : list (Call X)) :
  length (List.filter p (l1 ++ l2)%list) =
  length (List.filter p l1) + length (List.filter p l2).
Proof.
  rewrite List.filter_app, length_app. reflexivity.
Qed.

(** C6.  When the work resolves with [v], the wrapper resolves with the
    same [v]; the calls it makes are: open the span, fork the scope, the
    calls of the configuration and of the work, then [flush(5000)], which
    is the last call and the only flush the wrapper itself makes.  The
    capturing wrapper leaves a resolving handler as it is. *)
Theorem resolved_value_returned_flushed_once
  (context : StartSpanOptions) (configure : M Scope (Call X) X ())
  (work : M Scope (Call X) X R) (captureContext : option (Scope -> Scope))
  (scope configured after_work : Scope) (tc tw : list (Call X)) (v : R) :
  configure scope = mkResult tc configured (Normal ()) ->
  work configured = mkResult tw after_work (Normal v) ->
  let run := sentryConfigurationWrapper context configure work scope in
  outcome run = Normal v /\
  trace run = ([StartSpan context; WithScope] ++ tc ++ tw ++ [Flush 5000])%list /\
  length (List.filter is_flush (trace run)) =
    length (List.filter is_flush (tc ++ tw)%list) + 1 /\
  last (trace run) = Some (Flush 5000) /\
  sentryConfigurationWrapper context configure
    (sentryCaptureUnhandledExceptionWrapper env work captureContext) scope = run.
Proof.
  intros Hconfigure Hwork run.
  assert (Hrun : run = mkResult
            ([StartSpan context; WithScope] ++ tc ++ tw ++ [Flush 5000])%list
            scope (Normal v)).
  { unfold run. rewrite (configuration_wrapper_run _ _ _ _ _ _ Hconfigure).
    rewrite Hwork. reflexivity. }
  rewrite Hrun. cbn [outcome trace].
  split; [reflexivity |]. split; [reflexivity |]. split; [| split].
  - change ([StartSpan context; WithScope] ++ tc ++ tw ++ [Flush 5000])%list
      with (StartSpan context :: WithScope :: (tc ++ tw ++ [Flush 5000]))%list.
    cbn [List.filter is_flush]. rewrite app_assoc, filter_length_app.
    reflexivity.
  - rewrite !app_assoc. apply last_snoc.
  - rewrite <- Hrun. unfold run.
    rewrite !(configuration_wrapper_run _ _ _ _ _ _ Hconfigure).
    rewrite (capture_wrapper_resolved _ _ _ v) by (rewrite Hwork; reflexivity).
    reflexivity.
Qed.

(** C3.  When the handler rejects with [e], the wrapped invocation rejects
    with the same [e]; after the calls of the handler the error is logged
    (unless [NODE_ENV] is [production]) and [captureException] is called,
    once, with [e] and a callback that first marks the scope it is given
    with [markEventUnhandled], whose processor sets [handled] to false on
    every event; [flush(5000)] is still called, last. *)
Theorem rejected_error_captured_once_rethrown_flushed
  (context : StartSpanOptions) (configure : M Scope (Call X) X ())
  (handler : M Scope (Call X) X R) (captureContext : option (Scope -> Scope))
  (scope configured after_handler : Scope) (tc th : list (Call X)) (e : X) :
  configure scope = mkResult tc configured (Normal ()) ->
  handler configured = mkResult th after_handler (Throw e) ->
  let run :=
    sentryConfigurationWrapper context configure
      (sentryCaptureUnhandledExceptionWrapper env handler captureContext) scope in
  outcome run = Throw e /\
  (exists callback : Scope -> Scope,
     trace run =
       ([StartSpan context; WithScope] ++ tc ++ th ++
        (if bool_decide (env !! "NODE_ENV" ≠ Some "production")
         then [LoggerError "Unhandled exception" e] else []) ++
        [CaptureException e callback; Flush 5000])%list /\
     (forall s : Scope,
        callback s =
        from_option (fun f => f (markEventUnhandled s)) (markEventUnhandled s)
                    captureContext) /\
     (forall (s : Scope) (event : Event),
        exists processor : Event -> Event,
          scope_eventProcessors (markEventUnhandled s) =
            (scope_eventProcessors s ++ [processor])%list /\
          event_handled (processor event) = Some false)) /\
  length (List.filter is_capture (trace run)) =
    length (List.filter is_capture (tc ++ th)%list) + 1 /\
  last (trace run) = Some (Flush 5000).
Proof.
  intros Hconfigure Hhandler run.
  assert (Hrun : run = mkResult
            ([StartSpan context; WithScope] ++ tc ++ th ++
             (if bool_decide (env !! "NODE_ENV" ≠ Some "production")
              then [LoggerError "Unhandled exception" e] else []) ++
             [CaptureException e
                (fun s => from_option (fun f => f (markEventUnhandled s))
                                      (markEventUnhandled s) captureContext);
              Flush 5000])%list
            scope (Throw e)).
  { unfold run. rewrite (configuration_wrapper_run _ _ _ _ _ _ Hconfigure).
    rewrite (capture_wrapper_rejected _ _ _ e) by (rewrite Hhandler; reflexivity).
    rewrite Hhandler. cbn [trace outcome final].
    rewrite <- !app_assoc. reflexivity. }
  rewrite Hrun. cbn [outcome trace].
  split; [reflexivity |]. split; [| split].
  - eexists. split; [reflexivity |].
    split; [reflexivity | apply markEventUnhandled_processor].
  - change ([StartSpan context; WithScope] ++ ?l)%list
      with (StartSpan context :: WithScope :: l)%list.
    cbn [List.filter is_capture app].
    rewrite !filter_length_app.
    case_bool_decide; cbn; lia.
  - case_bool_decide; cbn [app].
    + change (StartSpan context :: WithScope :: ?l)%list
        with ([StartSpan context; WithScope] ++ l)%list.
      replace (tc ++ th ++ [LoggerError "Unhandled exception" e;
                 CaptureException e
                   (fun s => from_option (fun f => f (markEventUnhandled s))
                               (markEventUnhandled s) captureContext);
                 Flush 5000])%list
        with ((tc ++ th ++ [LoggerError "Unhandled exception" e;
                 CaptureException e
                   (fun s => from_option (fun f => f (markEventUnhandled s))
                               (markEventUnhandled s) captureContext)])
              ++ [Flush 5000])%list
        by (rewrite <- !app_assoc; reflexivity).
      rewrite app_assoc. apply last_snoc.
    + change (StartSpan context :: WithScope :: ?l)%list
        with ([StartSpan context; WithScope] ++ l)%list.
      replace (tc ++ th ++ [CaptureException e
                   (fun s => from_option (fun f => f (markEventUnhandled s))
                               (markEventUnhandled s) captureContext);
                 Flush 5000])%list
        with ((tc ++ th ++ [CaptureException e
                   (fun s => from_option (fun f => f (markEventUnhandled s))
                               (markEventUnhandled s) captureContext)])
              ++ [Flush 5000])%list
        by (rewrite <- !app_assoc; reflexivity).
      rewrite app_assoc. apply last_snoc.
Qed.

(** In every invocation of the legacy write
    wrapper the handler runs in a scope whose context block
    [Firestore Document] carries the bodies of the document before and
    after the change, each stringified with an indentation of 2, besides
    the parameters, the id and the path. *)
Lemma onWriteV1_document_context `{Runtime}
  (options : SentryWrapperParams) (change : Change) (context : EventContext)
  (scope : Scope) :
  exists configured : Scope,
    (forall handler : Change -> EventContext -> M Scope (Call X) X R,
       sentryOnWriteV1Wrapper env options handler change context scope =
       let work :=
         sentryCaptureUnhandledExceptionWrapper env (handler change context) None
           configured in
       mkResult
         ([StartSpan {| span_name := name options;
                        span_op := eventType context |};
           WithScope] ++ trace work ++ [Flush 5000])%list
         scope (outcome work)) /\
    scope_contexts configured !! "Firestore Document" =
      Some (JObject
              {[ "param" := params context;
                 "id" := JString (ref_id (ref (before change)));
                 "path" := JString (ref_path (ref (before change)));
                 "before" := JSON_stringify (data (before change)) 2;
                 "after" := JSON_stringify (data (after change)) 2 ]}).
Proof.
  eexists. split.
  - intros handler. unfold sentryOnWriteV1Wrapper, sentryInvocationV1Wrapper.
    erewrite configuration_wrapper_run; [| reflexivity]. reflexivity.
  - unfold mbind, M_bind, modify. cbn.
    rewrite lookup_insert_ne by discriminate. apply lookup_insert_eq.
Qed.

(** In every invocation of the document-change
    wrapper of the current generation the handler runs in a scope whose
    context block [Firestore Document] carries the document path and the
    event data as they are. *)
Lemma onDocumentChange_document_context
  (options : SentryWrapperParams) (event : FirestoreEvent) (scope : Scope) :
  exists configured : Scope,
    (forall handler : FirestoreEvent -> M Scope (Call X) X R,
       sentryWrapOnDocumentChange env options handler event scope =
       let work :=
         sentryCaptureUnhandledExceptionWrapper env (handler event) None
           configured in
       mkResult
         ([StartSpan {| span_name := name options;
                        span_op := event_type event |};
           WithScope] ++ trace work ++ [Flush 5000])%list
         scope (outcome work)) /\
    scope_contexts configured !! "Firestore Document" =
      Some (JObject {[ "document" := JString (event_document event);
                       "data" := event_data event ]}).
Proof.
  eexists. split.
  - intros handler. unfold sentryWrapOnDocumentChange, sentryInvocationV2Wrapper.
    erewrite configuration_wrapper_run; [| reflexivity]. reflexivity.
  - unfold mbind, M_bind, modify. cbn.
    rewrite lookup_insert_ne by discriminate. apply lookup_insert_eq.
Qed.

End Invocation.

(** C7 (amended).  The legacy write wrapper puts into the context block
    [Firestore Document] the params of the invocation, the id and the path
    of the document before the change, and the document bodies before and
    after the change, stringified as JSON with an indentation of 2; the
    block has these five fields and no other.  The document-change wrapper
    of the current generation puts the document path and the event data
    into the block as they are, and nothing else: it has no field
    [before] or [after], and nothing in it is stringified. *)
Theorem firestore_document_context_blocks `{Runtime}
  {X R : Type} (env : ProcessEnv) (options : SentryWrapperParams)
  (scope : Scope) :
  (forall (change : Change) (context : EventContext),
     exists (configured : Scope) (block : gmap string JSValue),
       (forall handler : Change -> EventContext -> M Scope (Call X) X R,
          sentryOnWriteV1Wrapper env options handler change context scope =
          let work :=
            sentryCaptureUnhandledExceptionWrapper env (handler change context)
              None configured in
          mkResult
            ([StartSpan {| span_name := name options;
                           span_op := eventType context |};
              WithScope] ++ trace work ++ [Flush 5000])%list
            scope (outcome work)) /\
       scope_contexts configured !! "Firestore Document" = Some (JObject block) /\
       block =
         {[ "param" := params context;
            "id" := JString (ref_id (ref (before change)));
            "path" := JString (ref_path (ref (before change)));
            "before" := JSON_stringify (data (before change)) 2;
            "after" := JSON_stringify (data (after change)) 2 ]} /\
       block !! "param" = Some (params context) /\
       block !! "id" = Some (JString (ref_id (ref (before change)))) /\
       block !! "path" = Some (JString (ref_path (ref (before change)))) /\
       block !! "before" = Some (JSON_stringify (data (before change)) 2) /\
       block !! "after" = Some (JSON_stringify (data (after change)) 2) /\
       (forall k : string,
          k ∉ ["param"; "id"; "path"; "before"; "after"] -> block !! k = None)) /\
  (forall event : FirestoreEvent,
     exists (configured : Scope) (block : gmap string JSValue),
       (forall handler : FirestoreEvent -> M Scope (Call X) X R,
          sentryWrapOnDocumentChange env options handler event scope =
          let work :=
            sentryCaptureUnhandledExceptionWrapper env (handler event) None
              configured in
          mkResult
            ([StartSpan {| span_name := name options;
                           span_op := event_type event |};
              WithScope] ++ trace work ++ [Flush 5000])%list
            scope (outcome work)) /\
       scope_contexts configured !! "Firestore Document" = Some (JObject block) /\
       block =
         {[ "document" := JString (event_document event);
            "data" := event_data event ]} /\
       block !! "document" = Some (JString (event_document event)) /\
       block !! "data" = Some (event_data event) /\
       block !! "before" = None /\
       block !! "after" = None /\
       (forall k : string, k ∉ ["document"; "data"] -> block !! k = None)).
Proof.
  split.
  - intros change context.
    destruct (onWriteV1_document_context (X := X) (R := R) env options change
                context scope) as (configured & Hrun & Hblock).
    exists configured. eexists. split; [exact Hrun |].
    split; [exact Hblock |]. split; [reflexivity |].
    do 5 (split; [reflexivity |]).
    intros k Hk.
    repeat (rewrite lookup_insert_ne by set_solver).
    apply lookup_singleton_ne. set_solver.
  - intros event.
    destruct (onDocumentChange_document_context (X := X) (R := R) env options
                event scope) as (configured & Hrun & Hblock).
    exists configured. eexists. split; [exact Hrun |].
    split; [exact Hblock |]. split; [reflexivity |].
    do 4 (split; [reflexivity |]).
    intros k Hk.
    rewrite lookup_insert_ne by set_solver.
    apply lookup_singleton_ne. set_solver.
Qed.

(** C7, counterexample: a handler wrapped by the document-change wrapper of
    the current generation finds, in the scope it runs in, a block
    [Firestore Document] made of the document path and of the event data
    itself, an object; the block has no field [before]. *)
Lemma onDocumentChange_context_not_stringified :
  outcome
    (sentryWrapOnDocumentChange (X := Exception) ∅
       {| name := "onDocumentWritten" |}
       Samples.read_document_context Samples.document_written
       Samples.empty_scope) =
  Normal
    (Some (JObject
             {[ "document" := JString "collection/doc-123";
                "data" :=
                  JObject {[ "before" := JObject {[ "field" := JString "before" ]};
                             "after" := JObject {[ "field" := JString "after" ]} ]} ]})) /\
  ({[ "document" := JString "collection/doc-123";
      "data" :=
        JObject {[ "before" := JObject {[ "field" := JString "before" ]};
                   "after" := JObject {[ "field" := JString "after" ]} ]} ]}
     : gmap string JSValue) !! "before" = None.
Proof.
  split; reflexivity.
Qed.

(** The calls of a wrapped invocation whose handler rejects, outside
    production and in production. *)
Example rejected_calls_in_test :
  trace
    (sentryConfigurationWrapper (R := nat)
       {| span_name := "fn"; span_op := "op" |}
       (modify (setTag "function.version" "v1"))
       (sentryCaptureUnhandledExceptionWrapper {[ "NODE_ENV" := "test" ]}
          (throw Samples.rootCause) None)
       Samples.empty_scope) =
  [ StartSpan {| span_name := "fn"; span_op := "op" |};
    WithScope;
    LoggerError "Unhandled exception" Samples.rootCause;
    CaptureException Samples.rootCause markEventUnhandled;
    Flush 5000 ].
Proof. reflexivity. Qed.

Example rejected_calls_in_production :
  trace
    (sentryConfigurationWrapper (R := nat)
       {| span_name := "fn"; span_op := "op" |}
       (modify (setTag "function.version" "v1"))
       (sentryCaptureUnhandledExceptionWrapper {[ "NODE_ENV" := "production" ]}
          (throw Samples.rootCause) None)
       Samples.empty_scope) =
  [ StartSpan {| span_name := "fn"; span_op := "op" |};
    WithScope;
    CaptureException Samples.rootCause markEventUnhandled;
    Flush 5000 ].
Proof. reflexivity. Qed.

(** C6, witness: work that resolves with 42. *)
Lemma resolved_value_returned_flushed_once_witness :
  outcome
    (sentryConfigurationWrapper (X := Exception)
       {| span_name := "fn"; span_op := "op" |}
       (mret ()) (mret 42) Samples.empty_scope) = Normal 42.
Proof.
  exact (proj1
    (resolved_value_returned_flushed_once (X := Exception) ∅
       {| span_name := "fn"; span_op := "op" |} (mret ()) (mret 42) None
       Samples.empty_scope Samples.empty_scope Samples.empty_scope [] [] 42
       eq_refl eq_refl)).
Defined.

(** C3, witness: a handler that rejects with the root error of the test
    chain. *)
Lemma rejected_error_captured_once_rethrown_flushed_witness :
  outcome
    (sentryConfigurationWrapper (R := nat)
       {| span_name := "fn"; span_op := "op" |}
       (mret ())
       (sentryCaptureUnhandledExceptionWrapper ∅ (throw Samples.rootCause) None)
       Samples.empty_scope) = Throw Samples.rootCause.
Proof.
  exact (proj1
    (rejected_error_captured_once_rethrown_flushed (R := nat) ∅
       {| span_name := "fn"; span_op := "op" |} (mret ())
       (throw Samples.rootCause) None
       Samples.empty_scope Samples.empty_scope Samples.empty_scope [] []
       Samples.rootCause eq_refl eq_refl)).
Defined.

End WrapperSpec.

(* ===================================================================== *)
(** * Further properties of the structured logger adapter *)
(* ===================================================================== *)

Module PinoLoggerExtra.
Import JS Eff PinoLogger JSFacts PinoLoggerSpec.

Lemma severity_of_number_cases (x : number) :
  (severity_of_number x = DEBUG <-> number_lt x (Finite 30) = true) /\
  (severity_of_number x = INFO <->
     number_le (Finite 30) x = true /\ number_lt x (Finite 40) = true) /\
  (severity_of_number x = WARNING <->
     number_le (Finite 40) x = true /\ number_lt x (Finite 50) = true) /\
  (severity_of_number x = ERROR <->
     number_le (Finite 50) x = true /\ number_lt x (Finite 60) = true) /\
  (severity_of_number x = CRITICAL <-> number_lt x (Finite 60) = false).
Proof.
  unfold severity_of_number.
  destruct x as [| | | q].
  - cbn. repeat split; try discriminate; intros []; discriminate.
  - cbn. repeat split; try discriminate; intros []; discriminate.
  - cbn. repeat split; try discriminate; intros []; discriminate.
  - assert (Hle : forall p : Q,
              number_le (Finite p) (Finite q) = negb (number_lt (Finite q) (Finite p)))
      by reflexivity.
    rewrite !Hle.
    destruct (number_lt (Finite q) (Finite 30)) eqn:H30;
    destruct (number_lt (Finite q) (Finite 40)) eqn:H40;
    destruct (number_lt (Finite q) (Finite 50)) eqn:H50;
    destruct (number_lt (Finite q) (Finite 60)) eqn:H60;
    cbn [negb];
    try (repeat split; solve [ reflexivity | discriminate
                              | intros []; discriminate ]);
    exfalso;
    repeat match goal with
      | Hlt : number_lt (Finite _) (Finite _) = true |- _ =>
          apply number_lt_Finite in Hlt
      | Hge : number_lt (Finite _) (Finite _) = false |- _ =>
          apply number_lt_Finite_false in Hge
      end; lra.
Qed.

Section Adapter.
Context `{Runtime}.

(** X1.  On a number the severity tells the range exactly: DEBUG is chosen
    for the numbers below 30 and only for them (negative numbers and
    -Infinity included), INFO for [30,40), WARNING for [40,50), ERROR for
    [50,60), and CRITICAL for every number that is not below 60: from 60
    on, +Infinity, and NaN. *)
Theorem pinoLevelToSeverity_preimages (x : number) :
  (pinoLevelToSeverity (JNumber x) = Normal DEBUG <->
     number_lt x (Finite 30) = true) /\
  (pinoLevelToSeverity (JNumber x) = Normal INFO <->
     number_le (Finite 30) x = true /\ number_lt x (Finite 40) = true) /\
  (pinoLevelToSeverity (JNumber x) = Normal WARNING <->
     number_le (Finite 40) x = true /\ number_lt x (Finite 50) = true) /\
  (pinoLevelToSeverity (JNumber x) = Normal ERROR <->
     number_le (Finite 50) x = true /\ number_lt x (Finite 60) = true) /\
  (pinoLevelToSeverity (JNumber x) = Normal CRITICAL <->
     number_lt x (Finite 60) = false) /\
  pinoLevelToSeverity (JNumber NaN) = Normal CRITICAL /\
  pinoLevelToSeverity (JNumber NegInfinity) = Normal DEBUG /\
  (forall q : Q, (q < 0)%Q ->
     pinoLevelToSeverity (JNumber (Finite q)) = Normal DEBUG).
Proof.
  rewrite !pinoLevelToSeverity_number.
  destruct (severity_of_number_cases x) as (Hd & Hi & Hw & He & Hc).
  assert (Hinj : forall s s' : LogSeverity,
            (Normal s : Completion JSError LogSeverity) = Normal s' <-> s = s').
  { intros s s'. split; [intros [= ->] | intros ->]; reflexivity. }
  rewrite !Hinj.
  split; [exact Hd |]. split; [exact Hi |]. split; [exact Hw |].
  split; [exact He |]. split; [exact Hc |].
  split; [reflexivity |]. split; [reflexivity |].
  intros q Hq. rewrite pinoLevelToSeverity_number. f_equal.
  apply (proj1 (severity_of_number_cases (Finite q))).
  apply number_lt_Finite. lra.
Qed.

Lemma severity_of_number_five (n : number) :
  severity_of_number n ∈ [DEBUG; INFO; WARNING; ERROR; CRITICAL].
Proof.
  unfold severity_of_number.
  repeat (destruct (number_lt n _); [set_solver |]). set_solver.
Qed.

(** X2.  Whatever the level is (the type [number] is not checked at run
    time), the mapping converts it to a number and ranges that number: it
    throws exactly when the conversion throws, which no primitive value
    makes it do; it never answers NOTICE, ALERT or EMERGENCY; a missing
    level is CRITICAL, and [null], [true] and [false] are DEBUG. *)
Theorem pinoLevelToSeverity_any_level (level : JSValue) :
  (forall n : number,
     ToNumber level = Normal n ->
     pinoLevelToSeverity level = Normal (severity_of_number n)) /\
  (forall x : JSError,
     pinoLevelToSeverity level = Throw x <-> ToNumber level = Throw x) /\
  (forall s : LogSeverity,
     pinoLevelToSeverity level = Normal s ->
     s ∈ [DEBUG; INFO; WARNING; ERROR; CRITICAL]) /\
  ((forall elems, level <> JArray elems) ->
   (forall props, level <> JObject props) ->
   exists s : LogSeverity, pinoLevelToSeverity level = Normal s) /\
  pinoLevelToSeverity JUndefined = Normal CRITICAL /\
  pinoLevelToSeverity JNull = Normal DEBUG /\
  (forall b : bool, pinoLevelToSeverity (JBoolean b) = Normal DEBUG).
Proof.
  rewrite !pinoLevelToSeverity_ToNumber.
  split.
  { intros n ->. reflexivity. }
  split.
  { intros x. destruct (ToNumber level) as [n | y]; cbn.
    - split; discriminate.
    - split; intros [= ->]; reflexivity. }
  split.
  { intros s. destruct (ToNumber level) as [n | y]; cbn; [| discriminate].
    intros [= <-]. apply severity_of_number_five. }
  split.
  { intros Harray Hobject.
    destruct level as [| | b | n | str | elems | props]; cbn; eauto.
    - destruct (Harray elems). reflexivity.
    - destruct (Hobject props). reflexivity. }
  split; [reflexivity |]. split; [reflexivity |].
  intros [|]; reflexivity.
Qed.

(** X3.  The record forwarded for a line always has a [severity] and a
    [message] field, and the message is [null] or [undefined] only when
    the line itself has a field [message] with that value. *)
Theorem forwarded_record_has_severity_and_message (logLine : string) :
  exists entry : LogEntry,
    write logLine () = mkResult [entry] () (Normal ()) /\
    is_Some (entry !! "severity") /\
    is_Some (entry !! "message") /\
    (forall v : JSValue,
       entry !! "message" = Some v ->
       v = JNull \/ v = JUndefined ->
       exists (log : JSValue) (props : gmap string JSValue),
         JSON_parse logLine = Normal log /\
         own_properties log = Normal props /\
         props !! "message" = Some v).
Proof.
  assert (Hfallback :
    forall entry : LogEntry,
      entry = {[ "severity" := JString "ERROR"; "message" := JString logLine ]} ->
      is_Some (entry !! "severity") /\ is_Some (entry !! "message") /\
      (forall v : JSValue,
         entry !! "message" = Some v -> v = JNull \/ v = JUndefined ->
         exists (log : JSValue) (props : gmap string JSValue),
           JSON_parse logLine = Normal log /\
           own_properties log = Normal props /\
           props !! "message" = Some v)).
  { intros entry ->. split; [eexists; reflexivity |].
    split; [eexists; reflexivity |].
    intros v Hv Hnullish.
    rewrite lookup_insert_ne, lookup_singleton_eq in Hv by discriminate.
    injection Hv as <-. destruct Hnullish; discriminate. }
  destruct (JSON_parse logLine) as [log | x] eqn:Hparse.
  - destruct (own_properties log) as [props | x] eqn:Hprops.
    + destruct (pinoLevelToSeverity (get props "level")) as [sev | x] eqn:Hsev.
      * eexists. split; [exact (write_mapped _ _ _ _ Hparse Hprops Hsev) |].
        destruct (mapped_entry_fields props
                    (JString (LogSeverity_string sev))
                    (nullish_or (get props "msg") (JString "")))
          as (Hseverity & Hmessage & _ & _).
        cbv zeta in Hseverity, Hmessage.
        split; [rewrite Hseverity; eauto |].
        split; [rewrite Hmessage; eauto |].
        intros v Hv Hnullish. rewrite Hmessage in Hv. injection Hv as <-.
        exists log, props. split; [reflexivity |]. split; [exact Hprops |].
        destruct (props !! "message") as [own |]; [reflexivity |].
        cbn in Hnullish. exfalso.
        destruct (get props "msg"); cbn in Hnullish;
          destruct Hnullish; discriminate.
      * eexists.
        split; [exact (write_severity_failure _ _ _ _ Hparse Hprops Hsev) |].
        apply Hfallback. reflexivity.
    + eexists. split; [exact (write_destructure_failure _ _ _ Hparse Hprops) |].
      apply Hfallback. reflexivity.
  - eexists. split; [exact (write_parse_failure _ _ Hparse) |].
    destruct (Hfallback _ eq_refl) as (Hs & Hm & Hnull).
    split; [exact Hs |]. split; [exact Hm |].
    intros v Hv Hnullish. destruct (Hnull v Hv Hnullish) as (log & ? & [=] & _).
Qed.

(** X4.  A line that is a JSON number or boolean has no fields: it is
    forwarded as the record with severity CRITICAL and the empty message,
    and nothing of the line is in it. *)
Theorem write_scalar_line (logLine : string) (log : JSValue) :
  JSON_parse logLine = Normal log ->
  (exists n, log = JNumber n) \/ (exists b, log = JBoolean b) ->
  write logLine () =
  mkResult [ {[ "severity" := JString "CRITICAL"; "message" := JString "" ]} ]
           () (Normal ()).
Proof.
  intros Hparse Hscalar.
  assert (Hprops : own_properties log = Normal ∅)
    by (destruct Hscalar as [[n ->] | [b ->]]; reflexivity).
  rewrite (write_mapped _ _ _ CRITICAL Hparse Hprops) by reflexivity.
  reflexivity.
Qed.

(** X5.  The fields [time], [pid] and [hostname] of a line have no effect
    on what is forwarded: two lines that parse to objects with the same
    fields apart from these three are forwarded as the same record. *)
Theorem bookkeeping_fields_have_no_effect
  (logLine logLine' : string) (props props' : gmap string JSValue)
  (sev : LogSeverity) :
  JSON_parse logLine = Normal (JObject props) ->
  JSON_parse logLine' = Normal (JObject props') ->
  (forall k : string,
     k ∉ ["time"; "pid"; "hostname"] -> props !! k = props' !! k) ->
  pinoLevelToSeverity (get props "level") = Normal sev ->
  write logLine () = write logLine' ().
Proof.
  intros Hparse Hparse' Hsame Hsev.
  assert (Hlevel : get props' "level" = get props "level").
  { unfold get. rewrite Hsame by set_solver. reflexivity. }
  assert (Hmsg : get props' "msg" = get props "msg").
  { unfold get. rewrite Hsame by set_solver. reflexivity. }
  rewrite (write_mapped _ _ props sev Hparse) by (reflexivity || exact Hsev).
  rewrite (write_mapped _ _ props' sev Hparse')
    by (reflexivity || (rewrite Hlevel; exact Hsev)).
  rewrite Hmsg. do 3 f_equal.
  apply map_eq. intros k.
  rewrite !rest_lookup.
  case_bool_decide as Hk; [reflexivity |].
  destruct (decide (k ∈ ["time"; "pid"; "hostname"])) as [Hin | Hout].
  - exfalso. apply Hk. set_solver.
  - rewrite (Hsame k Hout). reflexivity.
Qed.

End Adapter.

(** X4, witness: the line [42]. *)
Lemma write_scalar_line_witness :
  @write Samples.runtime_more Samples.line_number () =
  mkResult [ {[ "severity" := JString "CRITICAL"; "message" := JString "" ]} ]
           () (Normal ()).
Proof.
  apply (write_scalar_line (H := Samples.runtime_more)
           Samples.line_number (JNumber (Finite 42)) eq_refl).
  left. eexists. reflexivity.
Defined.

(** X5, witness: the sample pino line and the same line written later by
    another process. *)
Lemma bookkeeping_fields_have_no_effect_witness :
  @write Samples.runtime_more Samples.line_info () =
  @write Samples.runtime_more Samples.line_info_later ().
Proof.
  apply (bookkeeping_fields_have_no_effect (H := Samples.runtime_more)
           Samples.line_info Samples.line_info_later _ _ INFO eq_refl eq_refl);
    [| reflexivity].
  intros k Hk.
  rewrite !lookup_insert.
  repeat case_decide; subst; try reflexivity; exfalso; apply Hk; set_solver.
Defined.

End PinoLoggerExtra.

(* ===================================================================== *)
(** * Further properties of the leveled logger facade *)
(* ===================================================================== *)

Module FunctionLoggerExtra.
Import PinoLogger FunctionLogger FunctionLoggerSpec.

(** The three ways [getMinLevel] answers. *)
Lemma getMinLevel_cases (env : ProcessEnv) :
  (env !! "LOG_LEVEL" = None /\ getMinLevel env = 2) \/
  (exists l : Level,
     env !! "LOG_LEVEL" = Some (Level_name l) /\ getMinLevel env = logLevelId l) \/
  (exists value : string,
     env !! "LOG_LEVEL" = Some value /\
     (forall l : Level, value <> Level_name l) /\
     getMinLevel env = 0).
Proof.
  unfold getMinLevel.
  destruct (env !! "LOG_LEVEL") as [value |] eqn:Hvalue; cbn; [| left; auto].
  right.
  destruct (String.eqb_spec value "debug") as [-> | Hdebug];
    [left; exists debug; auto |].
  destruct (String.eqb_spec value "info") as [-> | Hinfo];
    [left; exists info; auto |].
  destruct (String.eqb_spec value "warn") as [-> | Hwarn];
    [left; exists warn; auto |].
  destruct (String.eqb_spec value "error") as [-> | Herror];
    [left; exists error; auto |].
  right. exists value. split; [reflexivity |]. split; [| reflexivity].
  intros []; assumption.
Qed.

Lemma isLocalEnvironment_LOG_LEVEL (env : ProcessEnv) (value : string) :
  isLocalEnvironment (<["LOG_LEVEL" := value]> env) = isLocalEnvironment env.
Proof.
  unfold isLocalEnvironment.
  rewrite !lookup_insert_ne by discriminate. reflexivity.
Qed.

Lemma logger_emits_error (env : ProcessEnv) :
  emitted (logger env) error = true.
Proof.
  rewrite logger_mode. destruct (isLocalEnvironment env); [| reflexivity].
  cbn [emitted]. apply Nat.leb_le.
  destruct (getMinLevel_cases env)
    as [[_ ->] | [(l & _ & ->) | (value & _ & _ & ->)]];
    [| destruct l |]; cbn; lia.
Qed.

(** X6.  The minimum level is one of 0, 2, 3, 4, 5, so in every
    environment a message logged with [error] is written: no value of
    [LOG_LEVEL] silences errors.  A message logged with [debug] is
    suppressed exactly in development mode with [LOG_LEVEL] equal to
    [info], [warn] or [error]. *)
Theorem error_is_always_emitted (env : ProcessEnv) :
  getMinLevel env ∈ [0; 2; 3; 4; 5] /\
  emitted (logger env) error = true /\
  (emitted (logger env) debug = false <->
     isLocalEnvironment env = true /\
     (env !! "LOG_LEVEL" = Some "info" \/
      env !! "LOG_LEVEL" = Some "warn" \/
      env !! "LOG_LEVEL" = Some "error")).
Proof.
  rewrite logger_mode.
  destruct (getMinLevel_cases env)
    as [[Hunset Hmin] | [(l & Hset & Hmin) | (value & Hset & Hother & Hmin)]].
  - rewrite Hmin. split; [set_solver |].
    destruct (isLocalEnvironment env); cbn; (split; [reflexivity |]).
    + split; [discriminate |]. rewrite Hunset.
      intros (_ & [? | [? | ?]]); discriminate.
    + split; [discriminate | intros [? _]; discriminate].
  - rewrite Hmin. split; [destruct l; set_solver |].
    destruct (isLocalEnvironment env); cbn.
    + split; [destruct l; reflexivity |]. rewrite Hset.
      destruct l; cbn; split; try discriminate; auto;
        intros (_ & [? | [? | ?]]); discriminate.
    + split; [reflexivity |].
      split; [discriminate | intros [? _]; discriminate].
  - rewrite Hmin. split; [set_solver |].
    destruct (isLocalEnvironment env); cbn; (split; [reflexivity |]).
    + split; [discriminate |]. rewrite Hset.
      intros (_ & [[= ->] | [[= ->] | [= ->]]]).
      * destruct (Hother info). reflexivity.
      * destruct (Hother warn). reflexivity.
      * destruct (Hother error). reflexivity.
    + split; [discriminate | intros [? _]; discriminate].
Qed.

(** X8.  [LOG_LEVEL] has no part in the choice of the mode, and outside
    development mode it has no effect at all: the native logger is handed
    every message, whatever [LOG_LEVEL] is set to. *)
Theorem LOG_LEVEL_matters_in_development_only (env : ProcessEnv) (value : string) :
  isLocalEnvironment (<["LOG_LEVEL" := value]> env) = isLocalEnvironment env /\
  (isLocalEnvironment env = false ->
   logger (<["LOG_LEVEL" := value]> env) = firebaseLogger /\
   forall l : Level, emitted (logger (<["LOG_LEVEL" := value]> env)) l = true) /\
  (isLocalEnvironment env = true ->
   logger (<["LOG_LEVEL" := value]> env) =
   TSLogger (getMinLevel (<["LOG_LEVEL" := value]> env))).
Proof.
  split; [apply isLocalEnvironment_LOG_LEVEL |].
  rewrite logger_mode, isLocalEnvironment_LOG_LEVEL.
  split; intros ->; [| reflexivity].
  split; [reflexivity |]. intros l. reflexivity.
Qed.


Lemma LOG_LEVEL_matters_in_development_only_witness :
  emitted (logger (<["LOG_LEVEL" := "error"]> {[ "NODE_ENV" := "production" ]}))
          debug = true.
Proof.
  assert (Hproduction :
            isLocalEnvironment {[ "NODE_ENV" := "production" ]} = false)
    by (vm_compute; reflexivity).
  apply (proj2 (proj1 (proj2
           (LOG_LEVEL_matters_in_development_only
              {[ "NODE_ENV" := "production" ]} "error")) Hproduction)).
Defined.

(** X9.  Raising the configured level only suppresses more: whatever is
    written under a level is written under every lower one, the rest of
    the environment being the same. *)
Theorem lower_level_emits_more (env : ProcessEnv) (a b l : Level) :
  logLevelId a <= logLevelId b ->
  emitted (logger (<["LOG_LEVEL" := Level_name b]> env)) l = true ->
  emitted (logger (<["LOG_LEVEL" := Level_name a]> env)) l = true.
Proof.
  rewrite !logger_mode, !isLocalEnvironment_LOG_LEVEL.
  destruct (isLocalEnvironment env); cbn [emitted]; [| reflexivity].
  rewrite (getMinLevel_named (<["LOG_LEVEL" := Level_name a]> env) a)
    by apply lookup_insert_eq.
  rewrite (getMinLevel_named (<["LOG_LEVEL" := Level_name b]> env) b)
    by apply lookup_insert_eq.
  intros Hab Hb. apply Nat.leb_le. apply Nat.leb_le in Hb. lia.
Qed.

Lemma lower_level_emits_more_witness :
  emitted (logger (<["LOG_LEVEL" := "info"]> {[ "NODE_ENV" := "test" ]}))
          warn = true.
Proof.
  apply (lower_level_emits_more {[ "NODE_ENV" := "test" ]} info warn warn).
  - vm_compute. lia.
  - vm_compute. reflexivity.
Defined.

End FunctionLoggerExtra.

(* ===================================================================== *)
(** * Further properties of the capture-context walk *)
(* ===================================================================== *)

Module InitSentryExtra.
Import JS Sentry InitSentrySpec.

Lemma carried_prefix_app
  (carrying : list (string * ErrorCaptureContext)) (rest : list Link) :
  carried_prefix (map (fun p => Carrying (fst p) (snd p)) carrying ++ rest)%list =
  (map snd carrying ++ carried_prefix rest)%list.
Proof.
  induction carrying as [| [message ctx] carrying IH]; cbn.
  - reflexivity.
  - rewrite IH. reflexivity.
Qed.

(** X10.  The walk goes down the cause chain as long as the errors carry
    a capture context and stops at the first ordinary [Error]: the
    contexts applied are those of the links before it, in order, and the
    contexts of context-carrying errors further down are not applied.  In
    particular an ordinary error at the top leaves the event as it is,
    whatever its causes carry. *)
Theorem walk_stops_at_first_ordinary_error
  (event : Event) (top : Link) (causes : list Link) :
  let report := initSentry_beforeSend event (chain_of top causes) in
  report =
    foldl (fun ev ctx => beforeSend ctx ev) event (carried_prefix (top :: causes)) /\
  (forall message : string, top = Ordinary message -> report = event) /\
  (forall (carrying : list (string * ErrorCaptureContext)) (message : string)
          (rest : list Link),
     top :: causes =
       (map (fun p => Carrying (fst p) (snd p)) carrying
          ++ Ordinary message :: rest)%list ->
     report = foldl (fun ev ctx => beforeSend ctx ev) event (map snd carrying)).
Proof.
  intros report.
  assert (Hreport : report =
            foldl (fun ev ctx => beforeSend ctx ev) event
                  (carried_prefix (top :: causes))).
  { unfold report, initSentry_beforeSend.
    rewrite walk_is_fold, layers_chain_of. reflexivity. }
  split; [exact Hreport |]. split.
  - intros message ->. rewrite Hreport. reflexivity.
  - intros carrying message rest Hlinks. rewrite Hreport, Hlinks.
    rewrite carried_prefix_app. cbn. rewrite app_nil_r. reflexivity.
Qed.

(** X10, witness: the root and middle errors of the test chain under an
    ordinary error that wraps a top error: only the top error's context
    is applied. *)
Lemma walk_stops_at_first_ordinary_error_witness :
  initSentry_beforeSend Samples.empty_event
    (chain_of
       (Carrying "Top error"
          {| extra := Some {[ "level" := JString "top" ]};
             tags := Some {[ "top" := "true" ]};
             contexts := None; fingerprint := None |})
       [ Ordinary "wrapped";
         Carrying "Root cause"
           {| extra := Some {[ "level" := JString "root" ]};
              tags := Some {[ "root" := "true" ]};
              contexts := None; fingerprint := None |} ]) =
  beforeSend
    {| extra := Some {[ "level" := JString "top" ]};
       tags := Some {[ "top" := "true" ]};
       contexts := None; fingerprint := None |}
    Samples.empty_event.
Proof.
  apply (proj2 (proj2
           (walk_stops_at_first_ordinary_error Samples.empty_event _ _))
           [ ("Top error",
              {| extra := Some {[ "level" := JString "top" ]};
                 tags := Some {[ "top" := "true" ]};
                 contexts := None; fingerprint := None |}) ]
           "wrapped" _ eq_refl).
Defined.

End InitSentryExtra.

(* ===================================================================== *)
(** * Further properties of the handler wrappers *)
(* ===================================================================== *)

Module WrapperExtra.
Import JS Eff Sentry WrapperSpec.

Section Invocation.
Context {X R : Type} (env : ProcessEnv).

Lemma capture_wrapper_outcome
  (handler : M Scope (Call X) X R) (captureContext : option (Scope -> Scope))
  (scope : Scope) :
  outcome (sentryCaptureUnhandledExceptionWrapper env handler captureContext scope) =
  outcome (handler scope).
Proof.
  destruct (outcome (handler scope)) as [v | e] eqn:Houtcome.
  - rewrite (capture_wrapper_resolved env _ _ _ v Houtcome). exact Houtcome.
  - rewrite (capture_wrapper_rejected env _ _ _ e Houtcome). reflexivity.
Qed.

Lemma capture_wrapper_trace
  (handler : M Scope (Call X) X R) (captureContext : option (Scope -> Scope))
  (scope : Scope) :
  exists reporting : list (Call X),
    trace (sentryCaptureUnhandledExceptionWrapper env handler captureContext scope) =
      (trace (handler scope) ++ reporting)%list /\
    length (List.filter is_capture reporting) =
      match outcome (handler scope) with
      | Normal _ => 0
      | Throw _ => 1
      end /\
    length (List.filter is_logger_error reporting) =
      match outcome (handler scope) with
      | Normal _ => 0
      | Throw _ =>
          if bool_decide (env !! "NODE_ENV" ≠ Some "production") then 1 else 0
      end.
Proof.
  destruct (outcome (handler scope)) as [v | e] eqn:Houtcome.
  - rewrite (capture_wrapper_resolved env _ _ _ v Houtcome).
    exists []. rewrite app_nil_r. repeat split; reflexivity.
  - rewrite (capture_wrapper_rejected env _ _ _ e Houtcome).
    eexists. split; [reflexivity |].
    case_bool_decide; split; reflexivity.
Qed.

Lemma configuration_wrapper_configure_throws
  (context : StartSpanOptions) (configure : M Scope (Call X) X ())
  (work : M Scope (Call X) X R) (scope failed : Scope)
  (tc : list (Call X)) (e : X) :
  configure scope = mkResult tc failed (Throw e) ->
  sentryConfigurationWrapper context configure work scope =
  mkResult ([StartSpan context; WithScope] ++ tc ++ [Flush 5000])%list
           scope (Throw e).
Proof.
  intros Hconfigure. run_wrapper. rewrite Hconfigure. reflexivity.
Qed.

(** X11.  Whatever the configuration and the work do, and however they
    end, an invocation opens the span first, forks the scope next and
    calls [flush(5000)] last, and it leaves the scope of its caller as it
    found it: what was set on the forked scope is gone afterwards. *)
Theorem invocation_is_bracketed_and_isolated
  (context : StartSpanOptions) (configure : M Scope (Call X) X ())
  (work : M Scope (Call X) X R) (scope : Scope) :
  let run := sentryConfigurationWrapper context configure work scope in
  final run = scope /\
  exists inner : list (Call X),
    trace run = (StartSpan context :: WithScope :: inner ++ [Flush 5000])%list /\
    last (trace run) = Some (Flush 5000).
Proof.
  intros run. unfold run.
  destruct (configure scope) as [tc configured [[] | e]] eqn:Hconfigure.
  - rewrite (configuration_wrapper_run _ _ _ _ _ _ Hconfigure).
    split; [reflexivity |].
    exists (tc ++ trace (work configured))%list. cbn [trace].
    split; [cbn; rewrite <- app_assoc; reflexivity |].
    rewrite !app_assoc. apply last_snoc.
  - rewrite (configuration_wrapper_configure_throws _ _ _ _ _ _ _ Hconfigure).
    split; [reflexivity |]. exists tc. cbn [trace].
    split; [reflexivity |]. rewrite app_assoc. apply last_snoc.
Qed.

(** X12.  When the configuration of the scope throws, the handler is not
    run and the error is not reported: the wrapper makes no call to
    [captureException] or to [logger.error]; it still calls
    [flush(5000)] and rejects with the error. *)
Theorem configuration_failure_is_rethrown_unreported
  (context : StartSpanOptions) (configure : M Scope (Call X) X ())
  (handler : M Scope (Call X) X R) (captureContext : option (Scope -> Scope))
  (scope failed : Scope) (tc : list (Call X)) (e : X) :
  configure scope = mkResult tc failed (Throw e) ->
  let run :=
    sentryConfigurationWrapper context configure
      (sentryCaptureUnhandledExceptionWrapper env handler captureContext) scope in
  run = mkResult ([StartSpan context; WithScope] ++ tc ++ [Flush 5000])%list
                 scope (Throw e) /\
  length (List.filter is_capture (trace run)) =
    length (List.filter is_capture tc) /\
  length (List.filter is_logger_error (trace run)) =
    length (List.filter is_logger_error tc).
Proof.
  intros Hconfigure run. unfold run.
  rewrite (configuration_wrapper_configure_throws _ _ _ _ _ _ _ Hconfigure).
  split; [reflexivity |]. cbn [trace].
  change ([StartSpan context; WithScope] ++ tc ++ [Flush 5000])%list
    with (StartSpan context :: WithScope :: (tc ++ [Flush 5000]))%list.
  cbn [List.filter is_capture is_logger_error].
  rewrite !filter_length_app. cbn. split; lia.
Qed.

(** X13.  When the configuration succeeds, a wrapped invocation ends as
    the handler ends in the configured scope: it resolves with the
    handler's value or rejects with the handler's error.  The wrapper
    calls [captureException] itself once if the handler rejects and not
    at all if it resolves; likewise [logger.error], and only when
    [NODE_ENV] is not [production]. *)
Theorem invocation_ends_as_the_handler
  (context : StartSpanOptions) (configure : M Scope (Call X) X ())
  (handler : M Scope (Call X) X R) (captureContext : option (Scope -> Scope))
  (scope configured : Scope) (tc : list (Call X)) :
  configure scope = mkResult tc configured (Normal ()) ->
  let run :=
    sentryConfigurationWrapper context configure
      (sentryCaptureUnhandledExceptionWrapper env handler captureContext) scope in
  outcome run = outcome (handler configured) /\
  length (List.filter is_capture (trace run)) =
    length (List.filter is_capture (tc ++ trace (handler configured))%list) +
    match outcome (handler configured) with
    | Normal _ => 0
    | Throw _ => 1
    end /\
  length (List.filter is_logger_error (trace run)) =
    length (List.filter is_logger_error (tc ++ trace (handler configured))%list) +
    match outcome (handler configured) with
    | Normal _ => 0
    | Throw _ =>
        if bool_decide (env !! "NODE_ENV" ≠ Some "production") then 1 else 0
    end.
Proof.
  intros Hconfigure run. unfold run.
  rewrite (configuration_wrapper_run _ _ _ _ _ _ Hconfigure).
  cbn [outcome trace].
  split; [apply capture_wrapper_outcome |].
  destruct (capture_wrapper_trace handler captureContext configured)
    as (reporting & -> & Hcapture & Hlogged).
  change ([StartSpan context; WithScope] ++ ?l)%list
    with (StartSpan context :: WithScope :: l)%list.
  cbn [List.filter is_capture is_logger_error].
  rewrite !filter_length_app, Hcapture, Hlogged. cbn. split; lia.
Qed.

End Invocation.

(** X12, witness: a configuration that throws the root error of the test
    chain. *)
Lemma configuration_failure_is_rethrown_unreported_witness :
  sentryConfigurationWrapper (R := nat)
    {| span_name := "fn"; span_op := "op" |}
    (throw Samples.rootCause)
    (sentryCaptureUnhandledExceptionWrapper ∅ (mret 42) None)
    Samples.empty_scope =
  mkResult [ StartSpan {| span_name := "fn"; span_op := "op" |};
             WithScope; Flush 5000 ]
           Samples.empty_scope (Throw Samples.rootCause).
Proof.
  exact (proj1
    (configuration_failure_is_rethrown_unreported (R := nat) ∅
       {| span_name := "fn"; span_op := "op" |} (throw Samples.rootCause)
       (mret 42) None Samples.empty_scope Samples.empty_scope []
       Samples.rootCause eq_refl)).
Defined.

(** X13, witness: a handler that rejects after the scope has been
    configured. *)
Lemma invocation_ends_as_the_handler_witness :
  outcome
    (sentryConfigurationWrapper (R := nat)
       {| span_name := "fn"; span_op := "op" |}
       (modify (setTag "function.version" "v1"))
       (sentryCaptureUnhandledExceptionWrapper ∅ (throw Samples.rootCause) None)
       Samples.empty_scope) =
  Throw Samples.rootCause.
Proof.
  exact (proj1
    (invocation_ends_as_the_handler (R := nat) ∅
       {| span_name := "fn"; span_op := "op" |}
       (modify (setTag "function.version" "v1"))
       (throw Samples.rootCause) None Samples.empty_scope
       (setTag "function.version" "v1" Samples.empty_scope) [] eq_refl)).
Defined.

Section Triggers.
Context {X R : Type} (env : ProcessEnv).

(** X14.  In the invocation wrappers of both generations the tags
    [function.version] and [function.name] and the context block
    [Firebase Context] are written after the configuration of the
    trigger, so they prevail over anything it set under these names;
    every other tag and block, the user and the event processors are as
    the trigger's configuration left them. *)
Theorem invocation_tags_prevail
  (options : SentryWrapperParams) (context : EventContext)
  (event : FirestoreEvent) (f : Scope -> Scope) (scope : Scope) :
  (exists configured : Scope,
     (forall work : M Scope (Call X) X R,
        sentryInvocationV1Wrapper env options context (modify f) work scope =
        let r := sentryCaptureUnhandledExceptionWrapper env work None configured in
        mkResult
          ([StartSpan {| span_name := name options;
                         span_op := eventType context |};
            WithScope] ++ trace r ++ [Flush 5000])%list
          scope (outcome r)) /\
     scope_tags configured !! "function.version" = Some "v1" /\
     scope_tags configured !! "function.name" = Some (name options) /\
     scope_contexts configured !! "Firebase Context" =
       Some (JObject {[ "eventId" := JString (eventId context);
                        "eventType" := JString (eventType context);
                        "resource" := resource context;
                        "timestamp" := JString (timestamp context) ]}) /\
     (forall k : string,
        k ∉ ["function.version"; "function.name"] ->
        scope_tags configured !! k = scope_tags (f scope) !! k) /\
     (forall k : string,
        k <> "Firebase Context" ->
        scope_contexts configured !! k = scope_contexts (f scope) !! k) /\
     scope_user configured = scope_user (f scope) /\
     scope_eventProcessors configured = scope_eventProcessors (f scope)) /\
  (exists configured : Scope,
     (forall work : M Scope (Call X) X R,
        sentryInvocationV2Wrapper env options event (modify f) work scope =
        let r := sentryCaptureUnhandledExceptionWrapper env work None configured in
        mkResult
          ([StartSpan {| span_name := name options;
                         span_op := event_type event |};
            WithScope] ++ trace r ++ [Flush 5000])%list
          scope (outcome r)) /\
     scope_tags configured !! "function.version" = Some "v2" /\
     scope_tags configured !! "function.name" = Some (name options) /\
     scope_contexts configured !! "Firebase Context" =
       Some (JObject {[ "eventId" := JString (event_id event);
                        "eventType" := JString (event_type event);
                        "source" := JString (event_source event);
                        "subject" := optional_string (event_subject event);
                        "timestamp" := JString (event_time event) ]}) /\
     (forall k : string,
        k ∉ ["function.version"; "function.name"] ->
        scope_tags configured !! k = scope_tags (f scope) !! k) /\
     (forall k : string,
        k <> "Firebase Context" ->
        scope_contexts configured !! k = scope_contexts (f scope) !! k) /\
     scope_user configured = scope_user (f scope) /\
     scope_eventProcessors configured = scope_eventProcessors (f scope)).
Proof.
  split.
  - eexists. split.
    { intros work. unfold sentryInvocationV1Wrapper.
      erewrite configuration_wrapper_run; [| reflexivity]. reflexivity. }
    unfold mbind, M_bind, modify. cbn.
    split; [rewrite lookup_insert_ne by discriminate; apply lookup_insert_eq |].
    split; [apply lookup_insert_eq |].
    split; [apply lookup_insert_eq |].
    split; [intros k Hk; rewrite !lookup_insert_ne by set_solver; reflexivity |].
    split; [intros k Hk; rewrite lookup_insert_ne by congruence; reflexivity |].
    split; reflexivity.
  - eexists. split.
    { intros work. unfold sentryInvocationV2Wrapper.
      erewrite configuration_wrapper_run; [| reflexivity]. reflexivity. }
    unfold mbind, M_bind, modify. cbn.
    split; [rewrite lookup_insert_ne by discriminate; apply lookup_insert_eq |].
    split; [apply lookup_insert_eq |].
    split; [apply lookup_insert_eq |].
    split; [intros k Hk; rewrite !lookup_insert_ne by set_solver; reflexivity |].
    split; [intros k Hk; rewrite lookup_insert_ne by congruence; reflexivity |].
    split; reflexivity.
Qed.

(** X15.  The user-change wrapper attaches the user to the scope as
    [{ id: uid }] and adds no context block of its own; the legacy
    schedule wrapper adds nothing of its own: in both the handler runs in
    a scope whose only new block is [Firebase Context]. *)
Theorem user_and_schedule_wrappers_add_no_block
  (options : SentryWrapperParams) (context : EventContext)
  (user : UserRecord) (scope : Scope) :
  (exists configured : Scope,
     (forall handler : UserRecord -> EventContext -> M Scope (Call X) X R,
        sentryOnUserChangeV1Wrapper env options handler user context scope =
        let r :=
          sentryCaptureUnhandledExceptionWrapper env (handler user context) None
            configured in
        mkResult
          ([StartSpan {| span_name := name options;
                         span_op := eventType context |};
            WithScope] ++ trace r ++ [Flush 5000])%list
          scope (outcome r)) /\
     scope_user configured = Some (JObject {[ "id" := JString (uid user) ]}) /\
     (forall k : string,
        k <> "Firebase Context" ->
        scope_contexts configured !! k = scope_contexts scope !! k)) /\
  (exists configured : Scope,
     (forall handler : EventContext -> M Scope (Call X) X R,
        sentryOnScheduleRunV1Wrapper env options handler context scope =
        let r :=
          sentryCaptureUnhandledExceptionWrapper env (handler context) None
            configured in
        mkResult
          ([StartSpan {| span_name := name options;
                         span_op := eventType context |};
            WithScope] ++ trace r ++ [Flush 5000])%list
          scope (outcome r)) /\
     scope_user configured = scope_user scope /\
     (forall k : string,
        k <> "Firebase Context" ->
        scope_contexts configured !! k = scope_contexts scope !! k)).
Proof.
  split.
  - eexists. split.
    { intros handler.
      unfold sentryOnUserChangeV1Wrapper, sentryInvocationV1Wrapper.
      erewrite configuration_wrapper_run; [| reflexivity]. reflexivity. }
    unfold mbind, M_bind, modify. cbn. split; [reflexivity |].
    intros k Hk. rewrite lookup_insert_ne by congruence. reflexivity.
  - eexists. split.
    { intros handler.
      unfold sentryOnScheduleRunV1Wrapper, sentryInvocationV1Wrapper.
      erewrite configuration_wrapper_run; [| reflexivity]. reflexivity. }
    unfold mbind, M_bind, modify, mret, M_ret. cbn. split; [reflexivity |].
    intros k Hk. rewrite lookup_insert_ne by congruence. reflexivity.
Qed.

End Triggers.

Section TriggersV2.
Context {X : Type} (env : ProcessEnv).

(** X16.  The schedule and task wrappers of the current generation open
    their spans with the fixed operations [on-schedule] and
    [on-task-dispatched] and set the version and name tags and their own
    block ([scheduledEvent] holding the event, [Task Request] holding the
    id, queue name, retry count and data), but, unlike the other
    wrappers, no block [Firebase Context]: that block stays as the scope
    had it. *)
Theorem schedule_and_task_wrappers_set_no_Firebase_Context
  {R : Type} (options : SentryWrapperParams) (event : JSValue)
  (request : Request) (scope : Scope) :
  (exists configured : Scope,
     (forall handler : JSValue -> M Scope (Call X) X (),
        sentryWrapOnSchedule env options handler event scope =
        let r :=
          sentryCaptureUnhandledExceptionWrapper env (handler event) None
            configured in
        mkResult
          ([StartSpan {| span_name := name options; span_op := "on-schedule" |};
            WithScope] ++ trace r ++ [Flush 5000])%list
          scope (outcome r)) /\
     scope_tags configured !! "function.version" = Some "v2" /\
     scope_tags configured !! "function.name" = Some (name options) /\
     scope_contexts configured !! "scheduledEvent" =
       Some (JObject {[ "event" := event ]}) /\
     scope_contexts configured !! "Firebase Context" =
       scope_contexts scope !! "Firebase Context") /\
  (exists configured : Scope,
     (forall handler : Request -> M Scope (Call X) X R,
        sentryWrapOnTaskDispatched env options handler request scope =
        let r :=
          sentryCaptureUnhandledExceptionWrapper env (handler request) None
            configured in
        mkResult
          ([StartSpan {| span_name := name options;
                         span_op := "on-task-dispatched" |};
            WithScope] ++ trace r ++ [Flush 5000])%list
          scope (outcome r)) /\
     scope_tags configured !! "function.version" = Some "v2" /\
     scope_tags configured !! "function.name" = Some (name options) /\
     scope_contexts configured !! "Task Request" =
       Some (JObject {[ "id" := JString (request_id request);
                        "queueName" := JString (queueName request);
                        "retryCount" := JNumber (retryCount request);
                        "data" := request_data request ]}) /\
     scope_contexts configured !! "Firebase Context" =
       scope_contexts scope !! "Firebase Context").
Proof.
  split.
  - eexists. split.
    { intros handler. unfold sentryWrapOnSchedule.
      erewrite configuration_wrapper_run; [| reflexivity]. reflexivity. }
    unfold mbind, M_bind, modify. cbn.
    split; [rewrite lookup_insert_ne by discriminate; apply lookup_insert_eq |].
    split; [apply lookup_insert_eq |].
    split; [apply lookup_insert_eq |].
    rewrite lookup_insert_ne by discriminate. reflexivity.
  - eexists. split.
    { intros handler. unfold sentryWrapOnTaskDispatched.
      erewrite configuration_wrapper_run; [| reflexivity]. reflexivity. }
    unfold mbind, M_bind, modify. cbn.
    split; [rewrite lookup_insert_ne by discriminate; apply lookup_insert_eq |].
    split; [apply lookup_insert_eq |].
    split; [apply lookup_insert_eq |].
    rewrite lookup_insert_ne by discriminate. reflexivity.
Qed.

(** X17.  The legacy publish wrapper reads [message.json] while it
    configures the scope.  When the getter returns a body, the handler
    runs in a scope whose block [PubSub Message] is that body.  When the
    getter throws (the data are not JSON), the handler is not run, the
    wrapper rejects with the getter's error without reporting it, and
    [flush(5000)] is still called. *)
Theorem publish_wrapper_reads_message_json
  {R : Type} (options : SentryWrapperParams) (message : Message X)
  (context : EventContext) (scope : Scope) :
  (forall body : JSValue,
     json message = Normal body ->
     body <> JNull ->
     exists configured : Scope,
       (forall handler : Message X -> EventContext -> M Scope (Call X) X R,
          sentryOnPublishV1Wrapper env options handler message context scope =
          let r :=
            sentryCaptureUnhandledExceptionWrapper env (handler message context)
              None configured in
          mkResult
            ([StartSpan {| span_name := name options;
                           span_op := eventType context |};
              WithScope] ++ trace r ++ [Flush 5000])%list
            scope (outcome r)) /\
       scope_contexts configured !! "PubSub Message" = Some body) /\
  (forall e : X,
     json message = Throw e ->
     forall handler : Message X -> EventContext -> M Scope (Call X) X R,
       sentryOnPublishV1Wrapper env options handler message context scope =
       mkResult
         [ StartSpan {| span_name := name options;
                        span_op := eventType context |};
           WithScope; Flush 5000 ]
         scope (Throw e)).
Proof.
  split.
  - intros body Hbody Hnotnull. eexists. split.
    { intros handler.
      unfold sentryOnPublishV1Wrapper, sentryInvocationV1Wrapper.
      erewrite configuration_wrapper_run;
        [| unfold mbind, M_bind, lift, modify; cbn; rewrite Hbody; reflexivity].
      reflexivity. }
    cbn. rewrite lookup_insert_ne by discriminate.
    destruct body; try (destruct (Hnotnull eq_refl)); apply lookup_insert_eq.
  - intros e Hthrows handler.
    unfold sentryOnPublishV1Wrapper, sentryInvocationV1Wrapper.
    erewrite configuration_wrapper_configure_throws;
      [| unfold mbind, M_bind, lift, modify; cbn; rewrite Hthrows; reflexivity].
    reflexivity.
Qed.

End TriggersV2.

(** X14, witness: a tag the trigger sets under another name is kept. *)
Lemma invocation_tags_prevail_witness :
  exists configured : Scope,
    scope_tags configured !! "function.version" = Some "v1" /\
    scope_tags configured !! "region" = Some "europe".
Proof.
  destruct (proj1 (invocation_tags_prevail (X := Exception) (R := nat) ∅
                     Samples.wrapper_options Samples.event_context
                     Samples.document_written
                     (fun scope => setTag "function.version" "v0"
                                     (setTag "region" "europe" scope))
                     Samples.empty_scope))
    as (configured & _ & Hversion & _ & _ & Htags & _).
  exists configured. split; [exact Hversion |].
  rewrite Htags by set_solver. reflexivity.
Defined.

(** X15, witness: the user wrapper leaves the blocks of the scope alone. *)
Lemma user_and_schedule_wrappers_add_no_block_witness :
  exists configured : Scope,
    scope_user configured = Some (JObject {[ "id" := JString "user-123" ]}) /\
    scope_contexts configured !! "PubSub Message" = None.
Proof.
  destruct (proj1 (user_and_schedule_wrappers_add_no_block
                     (X := Exception) (R := nat) ∅
                     Samples.wrapper_options Samples.event_context
                     Samples.user_record Samples.empty_scope))
    as (configured & _ & Huser & Hcontexts).
  exists configured. split; [exact Huser |].
  rewrite Hcontexts by discriminate. reflexivity.
Defined.

(** X17, witness: a message with a JSON body, and one without. *)
Lemma publish_wrapper_reads_message_json_witness :
  (exists configured : Scope,
     scope_contexts configured !! "PubSub Message" =
     Some (JObject {[ "data" := JString "test" ]})) /\
  sentryOnPublishV1Wrapper (R := nat) ∅ Samples.wrapper_options
    (fun _ _ => mret 42) Samples.message_without_json Samples.event_context
    Samples.empty_scope =
  mkResult
    [ StartSpan {| span_name := "test-function";
                   span_op := "google.pubsub.topic.publish" |};
      WithScope; Flush 5000 ]
    Samples.empty_scope
    (Throw (PlainError "Unable to parse Pub/Sub message data as JSON" None)).
Proof.
  split.
  - destruct (proj1 (publish_wrapper_reads_message_json (R := nat) ∅
                       Samples.wrapper_options Samples.message_with_json
                       Samples.event_context Samples.empty_scope)
                _ eq_refl ltac:(discriminate))
      as (configured & _ & Hblock).
    exists configured. exact Hblock.
  - apply (proj2 (publish_wrapper_reads_message_json (R := nat) ∅
                    Samples.wrapper_options Samples.message_without_json
                    Samples.event_context Samples.empty_scope)
             _ eq_refl).
Defined.

Section LocalLogging.
Context {X R : Type} (env : ProcessEnv).

(** X19.  Whenever [NODE_ENV] is not [production] (unset included), the
    error of a handler that rejects is handed to [logger.error] of the
    logger facade before it is captured, and the facade does write it:
    in no mode and under no [LOG_LEVEL] is an error-level message
    suppressed. *)
Theorem rejection_is_logged_outside_production
  (context : StartSpanOptions) (configure : M Scope (Call X) X ())
  (handler : M Scope (Call X) X R) (captureContext : option (Scope -> Scope))
  (scope configured : Scope) (tc : list (Call X)) (e : X) :
  configure scope = mkResult tc configured (Normal ()) ->
  outcome (handler configured) = Throw e ->
  env !! "NODE_ENV" <> Some "production" ->
  let run :=
    sentryConfigurationWrapper context configure
      (sentryCaptureUnhandledExceptionWrapper env handler captureContext) scope in
  (exists (before after : list (Call X)) (callback : Scope -> Scope),
     trace run =
       (before ++ LoggerError "Unhandled exception" e
               :: CaptureException e callback :: after)%list) /\
  FunctionLogger.emitted (FunctionLogger.logger env) FunctionLogger.error = true.
Proof.
  intros Hconfigure Hrejected Hnode run. unfold run.
  split; [| apply FunctionLoggerExtra.logger_emits_error].
  rewrite (configuration_wrapper_run _ _ _ _ _ _ Hconfigure).
  rewrite (capture_wrapper_rejected env _ _ _ e Hrejected). cbn [trace].
  rewrite bool_decide_eq_true_2 by exact Hnode.
  exists ([StartSpan context; WithScope] ++ tc ++ trace (handler configured))%list.
  exists [Flush 5000]. eexists.
  rewrite <- !app_assoc. reflexivity.
Qed.

End LocalLogging.

(** X19, witness: [NODE_ENV] unset. *)
Lemma rejection_is_logged_outside_production_witness :
  FunctionLogger.emitted (FunctionLogger.logger ∅) FunctionLogger.error = true.
Proof.
  apply (proj2
    (rejection_is_logged_outside_production (R := nat) ∅
       {| span_name := "fn"; span_op := "op" |} (mret ())
       (throw Samples.rootCause) None Samples.empty_scope Samples.empty_scope []
       Samples.rootCause eq_refl eq_refl
       ltac:(rewrite lookup_empty; discriminate))).
Defined.

End WrapperExtra.
